(** * Task controllers of the master: the command actor and the checkpoint GC task

    A shallow embedding of [master/internal/command/command.go] (the actor
    behind commands, notebooks, shells and tensorboards) and of the
    checkpoint garbage-collection task of package [internal].

    An actor's [Receive] is a function of the actor's fields and of the
    message being delivered.  It yields the fields afterwards, the calls made
    on other actors, on the database and on the allocation, in the order the
    code makes them, and how the handler ended: [nil], an [error], or a panic. *)

From stdpp Require Import base option list gmap strings pretty.
From Stdlib Require Import ZArith.

Open Scope Z_scope.

(** ** Declarations of other packages

    Types whose declarations live in packages outside these two files.  The
    code only stores values of these types and hands them on. *)
Class Foreign := {
  (** [sproto.ContainerLog], a log line reported for a container *)
  ContainerLog : Type;
  (** its [String] method *)
  ContainerLog_String : ContainerLog → string;
  (** [sproto.Allocation], the interface with the methods [Start] and [Kill] *)
  Allocation : Type;
  (** an item of an [archive.Archive] *)
  ArchiveItem : Type;
  (** [model.AgentUserGroup] *)
  AgentUserGroup : Type;
  (** the fields of [tasks.TaskSpec] this code does not assign *)
  TaskSpecBase : Type;
  (** the [summary] of a command, stored in every event *)
  summary : Type;
  (** [model.DevicesConfig] *)
  DevicesConfig : Type;
  (** the fields of [model.Environment] other than [PodSpec] *)
  EnvironmentBase : Type;
  (** a pod specification *)
  Pod : Type;
  (** the fields of an experiment configuration other than its checkpoint storage *)
  ExperimentConfigBase : Type;
  (** what [ExperimentCheckpointsToGCRaw] returns *)
  Checkpoints : Type;
  (** the failure a stopped container reports, and its [Error] method *)
  ContainerFailure : Type;
  ContainerFailure_Error : ContainerFailure → string;
}.

(** [time.Duration] counts nanoseconds. *)
Definition Duration := Z.
Definition Hour : Duration := 3600 * 1000000000.

(** [time.Time], as an instant on some clock. *)
Definition Time := Z.

(** An [*actor.Ref], by the address of the actor. *)
Definition Ref := string.

(** Go's [error] values, as this code builds them. *)
Inductive error :=
  | errors_New (text : string)
  | errors_Wrap (cause : error) (text : string)
  | ErrUnexpectedMessage.

Module container.

(** The states a container reports, in the order it goes through them. *)
Inductive State := Assigned | Pulling | Starting | Running | Terminated.

#[global] Instance State_eq_dec : EqDecision State.
Proof. solve_decision. Defined.

Record Address := {
  HostIP : string;
  HostPort : Z;
}.

(** Of a [container.Container] this code reads [State] only. *)
Record Container := {
  ID : string;
  State_ : State;
}.

End container.

Module model.
Section Types.
Context `{Foreign}.

Record ResourcesConfig := {
  Slots : Z;
  Weight : Z;
  SlotsPerTrial : Z;
  Devices : DevicesConfig;
  AgentLabel : string;
  ResourcePool : string;
  Priority : option Z;
}.

Record Environment := {
  PodSpec : option Pod;
  EnvironmentRest : EnvironmentBase;
}.

Record CommandConfig := {
  Description : string;
  Resources : ResourcesConfig;
  Environment_ : Environment;
}.

Record TaskContainerDefaultsConfig := {
  CPUPodSpec : option Pod;
  GPUPodSpec : option Pod;
}.

(** The checkpoint storage part of an experiment configuration, by the three
    retention counts its accessors return. *)
Record CheckpointStorageConfig := {
  SaveExperimentBest : Z;
  SaveTrialBest : Z;
  SaveTrialLatest : Z;
}.

Record ExperimentConfig := {
  CheckpointStorage : CheckpointStorageConfig;
  ExperimentConfigRest : ExperimentConfigBase;
}.

Record Experiment := {
  ID : Z;
  Config : ExperimentConfig;
}.

End Types.
End model.

Module tasks.
Section Types.
Context `{Foreign}.

(** What [SetInner] is given. *)
Inductive Inner :=
  | StartCommand (Config : model.CommandConfig)
      (UserFiles AdditionalFiles : list ArchiveItem)
  | GCCheckpoints (ExperimentID : Z) (ExperimentConfig : model.ExperimentConfig)
      (ToDelete : Checkpoints) (DeleteTensorboards : bool).

Record TaskSpec := {
  Base : TaskSpecBase;
  AgentUserGroup_ : option AgentUserGroup;
  TaskToken : string;
  inner : option Inner;
}.

Definition SetInner (i : Inner) (t : TaskSpec) : TaskSpec :=
  {| Base := Base t; AgentUserGroup_ := AgentUserGroup_ t;
     TaskToken := TaskToken t; inner := Some i |}.

End Types.
End tasks.

Module sproto.
Section Types.
Context `{Foreign}.

Definition TaskID := string.

Record FittingRequirements := {
  SingleAgent : bool;
}.

Record AllocateRequest := {
  ID : TaskID;
  Name : string;
  SlotsNeeded : Z;
  Label : string;
  ResourcePool : string;
  NonPreemptible : bool;
  FittingRequirements_ : FittingRequirements;
  TaskActor : option Ref;
}.

Record SetGroupPriority := {
  Priority : option Z;
  Handler : Ref;
}.

(** Of a [ResourcesAllocated] this code reads [ID] and [Allocations]. *)
Record ResourcesAllocated := {
  RA_ID : TaskID;
  Allocations : list Allocation;
}.

Record ResourcesReleased := {
  RR_TaskActor : Ref;
}.

(** [ReleaseResources] is only ever passed on whole. *)
Record ReleaseResources := {
  ResourcePool_ : string;
}.

Record TaskContainerStarted := {
  Addresses : list container.Address;
}.

Record TaskContainerStopped := {
  Failure : option ContainerFailure;
}.

Record TaskContainerStateChanged := {
  Container : container.Container;
  ContainerStarted : option TaskContainerStarted;
  ContainerStopped : option TaskContainerStopped;
}.

End Types.
End sproto.

Module proxy.

Record URL := {
  Scheme : string;
  Host : string;
}.

Record Register := {
  R_ServiceID : string;
  R_URL : URL;
  ProxyTCP : bool;
}.

Record Unregister := {
  ServiceID : string;
}.

End proxy.

(** ** The state of a command *)

(** [State] of package [command]: a command is [Pending] until its container
    reports, and then mirrors the container. *)
Inductive State := Pending | Assigned | Pulling | Starting | Running | Terminated.

#[global] Instance State_eq_dec : EqDecision State.
Proof. solve_decision. Defined.

(** ** What the API answers

    The records handed to [ctx.Respond].  A field the code fills through a
    conversion of [protoutils] or a [Proto] method holds the value converted. *)
Module notebookv1.
Record Notebook := {
  Id : string;
  State_ : State;
  Description : string;
  Container : option container.Container;
  ServiceAddress : string;
  StartTime : Time;
  Username : string;
  ResourcePool : string;
  ExitStatus : string;
}.
End notebookv1.

Module commandv1.
Record Command := {
  Id : string;
  State_ : State;
  Description : string;
  Container : option container.Container;
  StartTime : Time;
  Username : string;
  ResourcePool : string;
  ExitStatus : string;
}.
End commandv1.

Module shellv1.
Section Types.
Context `{Foreign}.
Record Shell := {
  Id : string;
  State_ : State;
  Description : string;
  StartTime : Time;
  Container : option container.Container;
  PrivateKey : string;
  PublicKey : string;
  Username : string;
  ResourcePool : string;
  ExitStatus : string;
  Addresses : list container.Address;
  AgentUserGroup_ : option AgentUserGroup;
}.
End Types.
End shellv1.

Module tensorboardv1.
Record Tensorboard := {
  Id : string;
  State_ : State;
  Description : string;
  StartTime : Time;
  Container : option container.Container;
  ServiceAddress : string;
  ExperimentIds : list Z;
  TrialIds : list Z;
  Username : string;
  ResourcePool : string;
  ExitStatus : string;
}.
End tensorboardv1.

(** ** Messages, calls and the handler's course *)

Section Actors.
Context `{Foreign}.

(** The [event] of package [command]: a snapshot and the one field that says
    what happened. *)
Record event := {
  Snapshot : summary;
  ScheduledEvent : option sproto.TaskID;
  AssignedEvent : option sproto.ResourcesAllocated;
  ContainerStartedEvent : option sproto.TaskContainerStarted;
  ServiceReadyEvent : option ContainerLog;
  TerminateRequestEvent : option sproto.ReleaseResources;
  ExitedEvent : option string;
  LogEvent : option string;
}.

(** An event with the snapshot alone, and one builder per field, for the
    composite literals of the code. *)
Definition event_of (s : summary) : event :=
  {| Snapshot := s; ScheduledEvent := None; AssignedEvent := None;
     ContainerStartedEvent := None; ServiceReadyEvent := None;
     TerminateRequestEvent := None; ExitedEvent := None; LogEvent := None |}.

Definition scheduled (s : summary) (id : sproto.TaskID) : event :=
  {| Snapshot := s; ScheduledEvent := Some id; AssignedEvent := None;
     ContainerStartedEvent := None; ServiceReadyEvent := None;
     TerminateRequestEvent := None; ExitedEvent := None; LogEvent := None |}.

Definition assigned (s : summary) (m : sproto.ResourcesAllocated) : event :=
  {| Snapshot := s; ScheduledEvent := None; AssignedEvent := Some m;
     ContainerStartedEvent := None; ServiceReadyEvent := None;
     TerminateRequestEvent := None; ExitedEvent := None; LogEvent := None |}.

Definition containerStarted (s : summary)
    (m : option sproto.TaskContainerStarted) : event :=
  {| Snapshot := s; ScheduledEvent := None; AssignedEvent := None;
     ContainerStartedEvent := m; ServiceReadyEvent := None;
     TerminateRequestEvent := None; ExitedEvent := None; LogEvent := None |}.

Definition serviceReady (s : summary) (l : ContainerLog) : event :=
  {| Snapshot := s; ScheduledEvent := None; AssignedEvent := None;
     ContainerStartedEvent := None; ServiceReadyEvent := Some l;
     TerminateRequestEvent := None; ExitedEvent := None; LogEvent := None |}.

Definition terminateRequest (s : summary) (m : sproto.ReleaseResources) : event :=
  {| Snapshot := s; ScheduledEvent := None; AssignedEvent := None;
     ContainerStartedEvent := None; ServiceReadyEvent := None;
     TerminateRequestEvent := Some m; ExitedEvent := None; LogEvent := None |}.

Definition exited (s : summary) (status : option string) : event :=
  {| Snapshot := s; ScheduledEvent := None; AssignedEvent := None;
     ContainerStartedEvent := None; ServiceReadyEvent := None;
     TerminateRequestEvent := None; ExitedEvent := status; LogEvent := None |}.

Definition logged (s : summary) (line : string) : event :=
  {| Snapshot := s; ScheduledEvent := None; AssignedEvent := None;
     ContainerStartedEvent := None; ServiceReadyEvent := None;
     TerminateRequestEvent := None; ExitedEvent := None; LogEvent := Some line |}.

(** The messages an actor of these two files is delivered.  The API requests
    carry nothing the code reads. *)
Inductive Message :=
  | PreStart
  | PostStop
  | ResourcesAllocated (m : sproto.ResourcesAllocated)
  | ReleaseResources (m : sproto.ReleaseResources)
  | TaskContainerStateChanged (m : sproto.TaskContainerStateChanged)
  | ContainerLogged (m : ContainerLog)
  | getSummary (userFilter : string)
  | Notebook
  | GetNotebookRequest
  | KillNotebookRequest
  | Command
  | GetCommandRequest
  | KillCommandRequest
  | Shell
  | GetShellRequest
  | KillShellRequest
  | Tensorboard
  | GetTensorboardRequest
  | KillTensorboardRequest
  | terminateForGC
  | OtherMessage.

(** What is sent to other actors. *)
Inductive Sent :=
  | AllocateRequest (m : sproto.AllocateRequest)
  | SetGroupPriority (m : sproto.SetGroupPriority)
  | ResourcesReleased (m : sproto.ResourcesReleased)
  | Event (e : event)
  | Register (m : proxy.Register)
  | Unregister (m : proxy.Unregister).

(** What [ctx.Respond] is given. *)
Inductive Response :=
  | Summary (s : summary)
  | NotebookResponse (n : notebookv1.Notebook)
  | GetNotebookResponse (n : notebookv1.Notebook) (Config : model.CommandConfig)
  | KillNotebookResponse (n : notebookv1.Notebook)
  | CommandResponse (c : commandv1.Command)
  | GetCommandResponse (c : commandv1.Command) (Config : model.CommandConfig)
  | KillCommandResponse (c : commandv1.Command)
  | ShellResponse (s : shellv1.Shell)
  | GetShellResponse (s : shellv1.Shell) (Config : model.CommandConfig)
  | KillShellResponse (s : shellv1.Shell)
  | TensorboardResponse (t : tensorboardv1.Tensorboard)
  | GetTensorboardResponse (t : tensorboardv1.Tensorboard)
  | KillTensorboardResponse (t : tensorboardv1.Tensorboard).

(** Lines written through [ctx.Log()]. *)
Inductive LogLine :=
  | Info (text : string)
  | Error_ (e : error)
  | ErrorText (text : string)
  | ErrorWith (e : error) (text : string)
  | GCFailed (status : option sproto.TaskContainerStopped).

(** The calls a handler makes, as they appear in its trace. *)
Inductive Effect :=
  | Ask (to : option Ref) (m : Sent)
  | Tell (to : option Ref) (m : Sent)
  | Respond (r : Response)
  | ActorOf_child (name : string)
  | NotifyAfter (d : Duration) (m : Message)
  | Stop
  | Log (l : LogLine)
  | StartTaskSession (taskID : string)
  | DeleteTaskSessionByTaskID (taskID : string)
  | ExperimentCheckpointsToGCRaw (id : Z) (experimentBest trialBest trialLatest : option Z)
      (delete : bool)
  | Start (a : Allocation) (spec : tasks.TaskSpec)
  | Kill (a : Allocation).

(** What the database answers.  [db.PgDB] is outside these files: a handle
    is the answers it gives to the three calls made here. *)
Record PgDB := {
  db_StartTaskSession : string → string + error;
  db_DeleteTaskSessionByTaskID : string → option error;
  db_ExperimentCheckpointsToGCRaw :
    Z → option Z → option Z → option Z → bool → Checkpoints + error;
}.

(** What [ctx] tells a handler about its own actor and the actor system. *)
Record actor_Context := {
  Self : Ref;
  RegisteredTime : Time;
  Address_Local : string;
  (** the child [ctx.ActorOf] returns for a name *)
  ActorOf : string → option Ref;
  (** [ctx.Self().System().Get] *)
  System_Get : string → option Ref;
  (** [sproto.GetRM] of the system *)
  GetRM : Ref;
  (** the error of the answer to a [ctx.Ask] *)
  Ask_Error : Ref → Sent → option error;
  (** [sproto.NewTaskID()] *)
  NewTaskID : sproto.TaskID;
}.

(** How a handler ended other than by returning. *)
Inductive failure :=
  | Err (e : error)
  | Panic (reason : string).

Inductive outcome (A : Type) :=
  | Returned (a : A)
  | Raised (f : failure).

(** A handler's run: how it ended, the actor's fields then, and its calls
    in order. *)
Record run (S A : Type) := Run {
  result : outcome A;
  final : S;
  trace : list Effect;
}.

Definition act (S A : Type) : Type := S → run S A.

End Actors.

Arguments Returned {_} a.
Arguments Raised {_} f.
Arguments Run {_ _ _} result final trace.
Arguments result {_ _ _} r.
Arguments final {_ _ _} r.
Arguments trace {_ _ _} r.

#[global] Instance act_ret `{Foreign} {S : Type} : MRet (act S) :=
  λ A a s, Run (Returned a) s [].

#[global] Instance act_bind `{Foreign} {S : Type} : MBind (act S) :=
  λ A B k m s,
    match m s with
    | Run (Returned a) s1 t1 =>
        match k a s1 with
        | Run r s2 t2 => Run r s2 (t1 ++ t2)
        end
    | Run (Raised f) s1 t1 => Run (Raised f) s1 t1
    end.

Section Actions.
Context `{Foreign} {S : Type}.

Definition get (s : S) : run S S := Run (Returned s) s [].
Definition modify (f : S → S) (s : S) : run S unit := Run (Returned tt) (f s) [].
Definition emit (e : Effect) (s : S) : run S unit := Run (Returned tt) s [e].
Definition raise {A : Type} (f : failure) (s : S) : run S A := Run (Raised f) s [].

(** [for _, x := range l { body }] *)
Fixpoint for_each {A : Type} (l : list A) (body : A → act S unit) (s : S)
    : run S unit :=
  match l with
  | [] => Run (Returned tt) s []
  | x :: l' => (body x ;; for_each l' body) s
  end.

(** The messages of a run are handled one after the other, for as long as
    the handler returns: an actor whose handler fails is stopped. *)
Definition deliver (handler : Message → act S unit) (msgs : list Message) : act S unit :=
  for_each msgs handler.

End Actions.

Arguments get {_ _} s /.
Arguments modify {_ _} f s /.
Arguments emit {_ _} e s /.
Arguments raise {_ _ _} f s /.

(** ** The command actor ([command.go]) *)

Module command.
Section Actor.
Context `{Foreign}.

(** [terminatedDuration]: how long a command stays in the master after it
    exited, before it is garbage collected. *)
Definition terminatedDuration : Duration := 24 * Hour.

(** A readiness check looks at one log line. *)
Definition readinessCheck : Type := ContainerLog → bool.

Record commandOwner := {
  ID : Z;
  Username : string;
}.

(** The values of [metadata], a [map[string]interface{}]: the two dynamic
    types the code asserts, and any other. *)
Inductive value :=
  | a_string (s : string)
  | a_slice_of_int (l : list Z)
  | of_another_type.

Record command := {
  config : model.CommandConfig;
  owner : commandOwner;
  agentUserGroup : option AgentUserGroup;
  taskSpec : option tasks.TaskSpec;
  taskID : sproto.TaskID;
  userFiles : list ArchiveItem;
  additionalFiles : list ArchiveItem;
  readinessChecks : gmap string readinessCheck;
  readinessMessageSent : bool;
  metadata : gmap string value;
  serviceAddress : option string;
  registeredTime : Time;
  task : option sproto.AllocateRequest;
  container : option container.Container;
  allocation : option Allocation;
  proxyNames : list string;
  exitStatus : option string;
  addresses : list container.Address;
  db : PgDB;
  proxy : option Ref;
  eventStream : option Ref;
  proxyTCP : bool;
}.

(** Assignments to one field. *)
Definition set_userFiles v (c : command) : command :=
  {| config := config c; owner := owner c;
     agentUserGroup := agentUserGroup c; taskSpec := taskSpec c;
     taskID := taskID c; userFiles := v;
     additionalFiles := additionalFiles c;
     readinessChecks := readinessChecks c;
     readinessMessageSent := readinessMessageSent c; metadata := metadata c;
     serviceAddress := serviceAddress c; registeredTime := registeredTime c;
     task := task c; container := container c; allocation := allocation c;
     proxyNames := proxyNames c; exitStatus := exitStatus c;
     addresses := addresses c; db := db c; proxy := proxy c;
     eventStream := eventStream c; proxyTCP := proxyTCP c |}.

Definition set_additionalFiles v (c : command) : command :=
  {| config := config c; owner := owner c;
     agentUserGroup := agentUserGroup c; taskSpec := taskSpec c;
     taskID := taskID c; userFiles := userFiles c; additionalFiles := v;
     readinessChecks := readinessChecks c;
     readinessMessageSent := readinessMessageSent c; metadata := metadata c;
     serviceAddress := serviceAddress c; registeredTime := registeredTime c;
     task := task c; container := container c; allocation := allocation c;
     proxyNames := proxyNames c; exitStatus := exitStatus c;
     addresses := addresses c; db := db c; proxy := proxy c;
     eventStream := eventStream c; proxyTCP := proxyTCP c |}.

Definition set_readinessChecks v (c : command) : command :=
  {| config := config c; owner := owner c;
     agentUserGroup := agentUserGroup c; taskSpec := taskSpec c;
     taskID := taskID c; userFiles := userFiles c;
     additionalFiles := additionalFiles c; readinessChecks := v;
     readinessMessageSent := readinessMessageSent c; metadata := metadata c;
     serviceAddress := serviceAddress c; registeredTime := registeredTime c;
     task := task c; container := container c; allocation := allocation c;
     proxyNames := proxyNames c; exitStatus := exitStatus c;
     addresses := addresses c; db := db c; proxy := proxy c;
     eventStream := eventStream c; proxyTCP := proxyTCP c |}.

Definition set_readinessMessageSent v (c : command) : command :=
  {| config := config c; owner := owner c;
     agentUserGroup := agentUserGroup c; taskSpec := taskSpec c;
     taskID := taskID c; userFiles := userFiles c;
     additionalFiles := additionalFiles c;
     readinessChecks := readinessChecks c; readinessMessageSent := v;
     metadata := metadata c; serviceAddress := serviceAddress c;
     registeredTime := registeredTime c; task := task c;
     container := container c; allocation := allocation c;
     proxyNames := proxyNames c; exitStatus := exitStatus c;
     addresses := addresses c; db := db c; proxy := proxy c;
     eventStream := eventStream c; proxyTCP := proxyTCP c |}.

Definition set_registeredTime v (c : command) : command :=
  {| config := config c; owner := owner c;
     agentUserGroup := agentUserGroup c; taskSpec := taskSpec c;
     taskID := taskID c; userFiles := userFiles c;
     additionalFiles := additionalFiles c;
     readinessChecks := readinessChecks c;
     readinessMessageSent := readinessMessageSent c; metadata := metadata c;
     serviceAddress := serviceAddress c; registeredTime := v;
     task := task c; container := container c; allocation := allocation c;
     proxyNames := proxyNames c; exitStatus := exitStatus c;
     addresses := addresses c; db := db c; proxy := proxy c;
     eventStream := eventStream c; proxyTCP := proxyTCP c |}.

Definition set_task v (c : command) : command :=
  {| config := config c; owner := owner c;
     agentUserGroup := agentUserGroup c; taskSpec := taskSpec c;
     taskID := taskID c; userFiles := userFiles c;
     additionalFiles := additionalFiles c;
     readinessChecks := readinessChecks c;
     readinessMessageSent := readinessMessageSent c; metadata := metadata c;
     serviceAddress := serviceAddress c; registeredTime := registeredTime c;
     task := v; container := container c; allocation := allocation c;
     proxyNames := proxyNames c; exitStatus := exitStatus c;
     addresses := addresses c; db := db c; proxy := proxy c;
     eventStream := eventStream c; proxyTCP := proxyTCP c |}.

Definition set_container v (c : command) : command :=
  {| config := config c; owner := owner c;
     agentUserGroup := agentUserGroup c; taskSpec := taskSpec c;
     taskID := taskID c; userFiles := userFiles c;
     additionalFiles := additionalFiles c;
     readinessChecks := readinessChecks c;
     readinessMessageSent := readinessMessageSent c; metadata := metadata c;
     serviceAddress := serviceAddress c; registeredTime := registeredTime c;
     task := task c; container := v; allocation := allocation c;
     proxyNames := proxyNames c; exitStatus := exitStatus c;
     addresses := addresses c; db := db c; proxy := proxy c;
     eventStream := eventStream c; proxyTCP := proxyTCP c |}.

Definition set_allocation v (c : command) : command :=
  {| config := config c; owner := owner c;
     agentUserGroup := agentUserGroup c; taskSpec := taskSpec c;
     taskID := taskID c; userFiles := userFiles c;
     additionalFiles := additionalFiles c;
     readinessChecks := readinessChecks c;
     readinessMessageSent := readinessMessageSent c; metadata := metadata c;
     serviceAddress := serviceAddress c; registeredTime := registeredTime c;
     task := task c; container := container c; allocation := v;
     proxyNames := proxyNames c; exitStatus := exitStatus c;
     addresses := addresses c; db := db c; proxy := proxy c;
     eventStream := eventStream c; proxyTCP := proxyTCP c |}.

Definition set_proxyNames v (c : command) : command :=
  {| config := config c; owner := owner c;
     agentUserGroup := agentUserGroup c; taskSpec := taskSpec c;
     taskID := taskID c; userFiles := userFiles c;
     additionalFiles := additionalFiles c;
     readinessChecks := readinessChecks c;
     readinessMessageSent := readinessMessageSent c; metadata := metadata c;
     serviceAddress := serviceAddress c; registeredTime := registeredTime c;
     task := task c; container := container c; allocation := allocation c;
     proxyNames := v; exitStatus := exitStatus c; addresses := addresses c;
     db := db c; proxy := proxy c; eventStream := eventStream c;
     proxyTCP := proxyTCP c |}.

Definition set_exitStatus v (c : command) : command :=
  {| config := config c; owner := owner c;
     agentUserGroup := agentUserGroup c; taskSpec := taskSpec c;
     taskID := taskID c; userFiles := userFiles c;
     additionalFiles := additionalFiles c;
     readinessChecks := readinessChecks c;
     readinessMessageSent := readinessMessageSent c; metadata := metadata c;
     serviceAddress := serviceAddress c; registeredTime := registeredTime c;
     task := task c; container := container c; allocation := allocation c;
     proxyNames := proxyNames c; exitStatus := v; addresses := addresses c;
     db := db c; proxy := proxy c; eventStream := eventStream c;
     proxyTCP := proxyTCP c |}.

Definition set_addresses v (c : command) : command :=
  {| config := config c; owner := owner c;
     agentUserGroup := agentUserGroup c; taskSpec := taskSpec c;
     taskID := taskID c; userFiles := userFiles c;
     additionalFiles := additionalFiles c;
     readinessChecks := readinessChecks c;
     readinessMessageSent := readinessMessageSent c; metadata := metadata c;
     serviceAddress := serviceAddress c; registeredTime := registeredTime c;
     task := task c; container := container c; allocation := allocation c;
     proxyNames := proxyNames c; exitStatus := exitStatus c; addresses := v;
     db := db c; proxy := proxy c; eventStream := eventStream c;
     proxyTCP := proxyTCP c |}.

Definition set_proxy v (c : command) : command :=
  {| config := config c; owner := owner c;
     agentUserGroup := agentUserGroup c; taskSpec := taskSpec c;
     taskID := taskID c; userFiles := userFiles c;
     additionalFiles := additionalFiles c;
     readinessChecks := readinessChecks c;
     readinessMessageSent := readinessMessageSent c; metadata := metadata c;
     serviceAddress := serviceAddress c; registeredTime := registeredTime c;
     task := task c; container := container c; allocation := allocation c;
     proxyNames := proxyNames c; exitStatus := exitStatus c;
     addresses := addresses c; db := db c; proxy := v;
     eventStream := eventStream c; proxyTCP := proxyTCP c |}.

Definition set_eventStream v (c : command) : command :=
  {| config := config c; owner := owner c;
     agentUserGroup := agentUserGroup c; taskSpec := taskSpec c;
     taskID := taskID c; userFiles := userFiles c;
     additionalFiles := additionalFiles c;
     readinessChecks := readinessChecks c;
     readinessMessageSent := readinessMessageSent c; metadata := metadata c;
     serviceAddress := serviceAddress c; registeredTime := registeredTime c;
     task := task c; container := container c; allocation := allocation c;
     proxyNames := proxyNames c; exitStatus := exitStatus c;
     addresses := addresses c; db := db c; proxy := proxy c;
     eventStream := v; proxyTCP := proxyTCP c |}.

(** Functions of the package and of its imports that are declared in other
    files: [newSummary]; [generateServiceAddress]; the address
    [fmt.Sprintf(tensorboardServiceAddress, taskID)] as a function of the task
    ID; [protoutils.DefaultStringValue]. *)
Variable newSummary : command → summary.
Variable generateServiceAddress : string → string + error.
Variable tensorboardServiceAddress : sproto.TaskID → string.
Variable DefaultStringValue : string.

(** [DefaultConfig], given the experiment defaults' devices and environment
    ([model.DefaultExperimentConfig] of the task container defaults). *)
Definition DefaultConfig (expConf_Devices : DevicesConfig)
    (expConf_Environment : model.Environment) : model.CommandConfig :=
  {| model.Description := "";
     model.Resources :=
       {| model.Slots := 1;
          model.Weight := 1;
          model.SlotsPerTrial := 1;
          model.Devices := expConf_Devices;
          model.AgentLabel := "";
          model.ResourcePool := "";
          model.Priority := None |};
     model.Environment_ := expConf_Environment |}.

(** [State]: the container's state when there is a container, else
    [Terminated] once there is an exit status, else [Pending]. *)
Definition State_of (c : command) : State :=
  match container c with
  | Some k =>
      match container.State_ k with
      | container.Assigned => Assigned
      | container.Pulling => Pulling
      | container.Starting => Starting
      | container.Running => Running
      | container.Terminated => Terminated
      end
  | None =>
      match exitStatus c with
      | Some _ => Terminated
      | None => Pending
      end
  end.

(** [exit] *)
Definition exit (ctx : actor_Context) (status : string) : act command unit :=
  modify (set_exitStatus (Some status));;
  c ← get;
  emit (Tell (eventStream c) (Event (exited (newSummary c) (exitStatus c))));;
  emit (Tell (Some (GetRM ctx))
          (ResourcesReleased {| sproto.RR_TaskActor := Self ctx |}));;
  emit (NotifyAfter terminatedDuration terminateForGC);;
  match task c with
  | Some t =>
      emit (DeleteTaskSessionByTaskID (sproto.ID t));;
      match db_DeleteTaskSessionByTaskID (db c) (sproto.ID t) with
      | Some err =>
          emit (Log (ErrorWith err "cannot delete task session for a command"))
      | None => mret tt
      end
  | None => mret tt
  end.

(** [terminate], for the message being handled. *)
Definition terminate (ctx : actor_Context) (msg : Message) : act command unit :=
  match msg with
  | ReleaseResources m =>
      c ← get;
      emit (Tell (eventStream c) (Event (terminateRequest (newSummary c) m)))
  | _ => mret tt
  end;;
  c ← get;
  match allocation c with
  | None => exit ctx "task is aborted without being scheduled"
  | Some a =>
      emit (Log (Info "task forcible terminating"));;
      emit (Kill a)
  end.

(** [receiveSchedulerMsg] *)
Definition receiveSchedulerMsg (ctx : actor_Context) (msg : Message)
    : act command unit :=
  match msg with
  | ResourcesAllocated m =>
      c ← get;
      match task c with
      | Some t =>
          if decide (sproto.RA_ID m = sproto.ID t) then
            match sproto.Allocations m with
            | [a] =>
                emit (StartTaskSession (sproto.ID t));;
                match db_StartTaskSession (db c) (sproto.ID t) with
                | inr err =>
                    raise (Err (errors_Wrap err "cannot start a new task session"))
                | inl taskToken =>
                    modify (set_allocation (Some a));;
                    match taskSpec c with
                    | None => raise (Panic "nil pointer dereference")
                    | Some spec =>
                        emit (Start a
                          (tasks.SetInner
                             (tasks.StartCommand (config c) (userFiles c)
                                (additionalFiles c))
                             {| tasks.Base := tasks.Base spec;
                                tasks.AgentUserGroup_ := agentUserGroup c;
                                tasks.TaskToken := taskToken;
                                tasks.inner := tasks.inner spec |}));;
                        c' ← get;
                        emit (Tell (eventStream c') (Event (assigned (newSummary c') m)));;
                        modify (set_userFiles []);;
                        modify (set_additionalFiles [])
                    end
                end
            | _ =>
                raise (Panic "Command should only receive an allocation of one container")
            end
          else
            emit (Log (Info "ignoring resource allocation since the command has exited."))
      | None =>
          emit (Log (Info "ignoring resource allocation since the command has exited."))
      end
  | _ => raise (Err ErrUnexpectedMessage)
  end.

(** [readinessChecksPass]: every check that accepts the line is deleted from
    the map and logged; the answer is whether the map is empty afterwards.
    Go ranges over a map in no specified order; the lines are logged here in
    the order of [map_to_list]. *)
Definition passes (log : ContainerLog) (entry : string * readinessCheck) : Prop :=
  entry.2 log = true.

#[global] Instance passes_dec log entry : Decision (passes log entry).
Proof. unfold passes. apply _. Defined.

Definition readinessChecksPass (log : ContainerLog) : act command bool :=
  c ← get;
  for_each (filter (passes log) (map_to_list (readinessChecks c)))
    (λ entry,
       modify (λ c, set_readinessChecks (delete entry.1 (readinessChecks c)) c);;
       emit (Log (Info ("readiness check passed: " +:+ entry.1))));;
  c' ← get;
  mret (bool_decide (size (readinessChecks c') = 0%nat)).

(** The exit status an API answer shows. *)
Definition shown_exitStatus (c : command) : string :=
  match exitStatus c with
  | Some status => status
  | None => DefaultStringValue
  end.

(** [toNotebook] *)
Definition toNotebook (ctx : actor_Context) (c : command)
    : notebookv1.Notebook + error :=
  match generateServiceAddress (taskID c) with
  | inr err => inr (errors_Wrap err ("generating service address for " +:+ taskID c))
  | inl address =>
      inl {| notebookv1.Id := Address_Local ctx;
             notebookv1.State_ := State_of c;
             notebookv1.Description := model.Description (config c);
             notebookv1.Container := container c;
             notebookv1.ServiceAddress := address;
             notebookv1.StartTime := RegisteredTime ctx;
             notebookv1.Username := Username (owner c);
             notebookv1.ResourcePool := model.ResourcePool (model.Resources (config c));
             notebookv1.ExitStatus := shown_exitStatus c |}
  end.

(** [toCommand] *)
Definition toCommand (ctx : actor_Context) (c : command) : commandv1.Command :=
  {| commandv1.Id := Address_Local ctx;
     commandv1.State_ := State_of c;
     commandv1.Description := model.Description (config c);
     commandv1.Container := container c;
     commandv1.StartTime := RegisteredTime ctx;
     commandv1.Username := Username (owner c);
     commandv1.ResourcePool := model.ResourcePool (model.Resources (config c));
     commandv1.ExitStatus := shown_exitStatus c |}.

(** A type assertion [v.(T)] on a value of [metadata] panics unless the key
    is there with a value of type [T]. *)
Definition assert_string (v : option value) : act command string :=
  match v with
  | Some (a_string s) => mret s
  | _ => raise (Panic "interface conversion")
  end.

Definition assert_slice_of_int (v : option value) : act command (list Z) :=
  match v with
  | Some (a_slice_of_int l) => mret l
  | _ => raise (Panic "interface conversion")
  end.

(** [int32(id)] of an [int]: the low 32 bits, read as a signed number. *)
Definition int32 (id : Z) : Z := (id + 2 ^ 31) `mod` 2 ^ 32 - 2 ^ 31.

(** [toShell] *)
Definition toShell (ctx : actor_Context) : act command shellv1.Shell :=
  c ← get;
  privateKey ← assert_string (metadata c !! "privateKey");
  publicKey ← assert_string (metadata c !! "publicKey");
  mret {| shellv1.Id := Address_Local ctx;
          shellv1.State_ := State_of c;
          shellv1.Description := model.Description (config c);
          shellv1.StartTime := RegisteredTime ctx;
          shellv1.Container := container c;
          shellv1.PrivateKey := privateKey;
          shellv1.PublicKey := publicKey;
          shellv1.Username := Username (owner c);
          shellv1.ResourcePool := model.ResourcePool (model.Resources (config c));
          shellv1.ExitStatus := shown_exitStatus c;
          shellv1.Addresses := addresses c;
          shellv1.AgentUserGroup_ := agentUserGroup c |}.

(** [toTensorboard] *)
Definition toTensorboard (ctx : actor_Context) : act command tensorboardv1.Tensorboard :=
  c ← get;
  experiment_ids ← assert_slice_of_int (metadata c !! "experiment_ids");
  trial_ids ← assert_slice_of_int (metadata c !! "trial_ids");
  mret {| tensorboardv1.Id := Address_Local ctx;
          tensorboardv1.State_ := State_of c;
          tensorboardv1.Description := model.Description (config c);
          tensorboardv1.StartTime := RegisteredTime ctx;
          tensorboardv1.Container := container c;
          tensorboardv1.ServiceAddress := tensorboardServiceAddress (taskID c);
          tensorboardv1.ExperimentIds := int32 <$> experiment_ids;
          tensorboardv1.TrialIds := int32 <$> trial_ids;
          tensorboardv1.Username := Username (owner c);
          tensorboardv1.ResourcePool := model.ResourcePool (model.Resources (config c));
          tensorboardv1.ExitStatus := shown_exitStatus c |}.

(** The registration of one address with the proxy, keyed on the task ID. *)
Definition registration (c : command) (address : container.Address) : proxy.Register :=
  {| proxy.R_ServiceID := taskID c;
     proxy.R_URL :=
       {| proxy.Scheme := "http";
          proxy.Host := container.HostIP address +:+ ":" +:+ pretty (container.HostPort address) |};
     proxy.ProxyTCP := proxyTCP c |}.

(** [Receive] *)
Definition Receive (ctx : actor_Context) (msg : Message) : act command unit :=
  match msg with
  | PreStart =>
      modify (set_registeredTime (RegisteredTime ctx));;
      emit (ActorOf_child "events");;
      modify (set_eventStream (ActorOf ctx "events"));;
      modify (set_proxy (System_Get ctx "proxy"));;
      c ← get;
      let request :=
        {| sproto.ID := taskID c;
           sproto.Name := model.Description (config c);
           sproto.SlotsNeeded := model.Slots (model.Resources (config c));
           sproto.Label := model.AgentLabel (model.Resources (config c));
           sproto.ResourcePool := model.ResourcePool (model.Resources (config c));
           sproto.NonPreemptible := true;
           sproto.FittingRequirements_ := {| sproto.SingleAgent := true |};
           sproto.TaskActor := Some (Self ctx) |} in
      modify (set_task (Some request));;
      emit (Ask (Some (GetRM ctx)) (AllocateRequest request));;
      match Ask_Error ctx (GetRM ctx) (AllocateRequest request) with
      | Some err => raise (Err err)
      | None =>
          emit (Tell (Some (GetRM ctx))
                  (SetGroupPriority
                     {| sproto.Priority := model.Priority (model.Resources (config c));
                        sproto.Handler := Self ctx |}));;
          c' ← get;
          emit (Tell (eventStream c') (Event (scheduled (newSummary c') (taskID c'))))
      end

  | PostStop => terminate ctx msg

  | ResourcesAllocated _ => receiveSchedulerMsg ctx msg

  | getSummary userFilter =>
      c ← get;
      if decide (userFilter = "" ∨ Username (owner c) = userFilter)
      then emit (Respond (Summary (newSummary c)))
      else mret tt

  | Notebook =>
      c ← get;
      match toNotebook ctx c with
      | inr err => emit (Log (Error_ err))
      | inl notebook => emit (Respond (NotebookResponse notebook))
      end

  | GetNotebookRequest =>
      c ← get;
      match toNotebook ctx c with
      | inr err => emit (Log (Error_ err))
      | inl notebook => emit (Respond (GetNotebookResponse notebook (config c)))
      end

  | KillNotebookRequest =>
      c ← get;
      match toNotebook ctx c with
      | inr err => emit (Log (Error_ err))
      | inl notebook =>
          terminate ctx msg;;
          emit (Respond (KillNotebookResponse notebook))
      end

  | Command =>
      c ← get; emit (Respond (CommandResponse (toCommand ctx c)))

  | GetCommandRequest =>
      c ← get; emit (Respond (GetCommandResponse (toCommand ctx c) (config c)))

  | KillCommandRequest =>
      terminate ctx msg;;
      c ← get; emit (Respond (KillCommandResponse (toCommand ctx c)))

  | Shell =>
      shell ← toShell ctx; emit (Respond (ShellResponse shell))

  | GetShellRequest =>
      shell ← toShell ctx;
      c ← get; emit (Respond (GetShellResponse shell (config c)))

  | KillShellRequest =>
      terminate ctx msg;;
      shell ← toShell ctx; emit (Respond (KillShellResponse shell))

  | Tensorboard =>
      tensorboard ← toTensorboard ctx; emit (Respond (TensorboardResponse tensorboard))

  | GetTensorboardRequest =>
      tensorboard ← toTensorboard ctx;
      emit (Respond (GetTensorboardResponse tensorboard))

  | KillTensorboardRequest =>
      terminate ctx msg;;
      tensorboard ← toTensorboard ctx;
      emit (Respond (KillTensorboardResponse tensorboard))

  | TaskContainerStateChanged m =>
      modify (set_container (Some (sproto.Container m)));;
      match container.State_ (sproto.Container m) with
      | container.Running =>
          match sproto.ContainerStarted m with
          | None => raise (Panic "nil pointer dereference")
          | Some started =>
              modify (set_addresses (sproto.Addresses started));;
              c ← get;
              for_each (addresses c)
                (λ address, emit (Ask (proxy c) (Register (registration c address))));;
              modify (set_proxyNames ((λ _, taskID c) <$> addresses c));;
              c' ← get;
              emit (Tell (eventStream c')
                      (Event (containerStarted (newSummary c') (sproto.ContainerStarted m))))
          end
      | container.Terminated =>
          c ← get;
          for_each (proxyNames c)
            (λ name, emit (Tell (proxy c) (Unregister {| proxy.ServiceID := name |})));;
          modify (set_proxyNames []);;
          match sproto.ContainerStopped m with
          | None => raise (Panic "nil pointer dereference")
          | Some stopped =>
              exit ctx
                match sproto.Failure stopped with
                | Some failure => ContainerFailure_Error failure
                | None => "command exited successfully"
                end
          end
      | _ => mret tt
      end

  | ContainerLogged m =>
      c ← get;
      (if readinessMessageSent c then mret tt
       else
         pass ← readinessChecksPass m;
         if pass : bool then
           modify (set_readinessMessageSent true);;
           c' ← get;
           emit (Tell (eventStream c') (Event (serviceReady (newSummary c') m)))
         else mret tt);;
      c'' ← get;
      emit (Tell (eventStream c'')
              (Event (logged (newSummary c'') (ContainerLog_String m))))

  | terminateForGC => emit Stop

  | ReleaseResources _ | OtherMessage => raise (Err ErrUnexpectedMessage)
  end.


(** [setPodSpec] *)
Definition setPodSpec (config : model.CommandConfig)
    (taskContainerDefaults : model.TaskContainerDefaultsConfig) : model.CommandConfig :=
  match model.PodSpec (model.Environment_ config) with
  | Some _ => config
  | None =>
      {| model.Description := model.Description config;
         model.Resources := model.Resources config;
         model.Environment_ :=
           {| model.PodSpec :=
                if decide (model.Slots (model.Resources config) = 0)
                then model.CPUPodSpec taskContainerDefaults
                else model.GPUPodSpec taskContainerDefaults;
              model.EnvironmentRest := model.EnvironmentRest (model.Environment_ config) |} |}
  end.

End Actor.
End command.

(** ** The checkpoint GC task (package [internal]) *)

Module internal.
Section Task.
Context `{Foreign}.

Record checkpointGCTask := {
  rm : option Ref;
  db : PgDB;
  experiment : option model.Experiment;
  gcTensorboards : bool;
  agentUserGroup : option AgentUserGroup;
  taskSpec : option tasks.TaskSpec;
  task : option sproto.AllocateRequest;
  logs : list ContainerLog;
}.

Definition set_task v (c : checkpointGCTask) : checkpointGCTask :=
  {| rm := rm c; db := db c; experiment := experiment c;
     gcTensorboards := gcTensorboards c; agentUserGroup := agentUserGroup c;
     taskSpec := taskSpec c; task := v; logs := logs c |}.

Definition set_logs v (c : checkpointGCTask) : checkpointGCTask :=
  {| rm := rm c; db := db c; experiment := experiment c;
     gcTensorboards := gcTensorboards c; agentUserGroup := agentUserGroup c;
     taskSpec := taskSpec c; task := task c; logs := v |}.

(** [Receive] *)
Definition Receive (ctx : actor_Context) (msg : Message) : act checkpointGCTask unit :=
  match msg with
  | PreStart =>
      t ← get;
      match experiment t with
      | None => raise (Panic "nil pointer dereference")
      | Some e =>
          let request :=
            {| sproto.ID := NewTaskID ctx;
               sproto.Name := "Checkpoint GC (Experiment " +:+ pretty (model.ID e) +:+ ")";
               sproto.SlotsNeeded := 0;
               sproto.Label := "";
               sproto.ResourcePool := "";
               sproto.NonPreemptible := true;
               sproto.FittingRequirements_ := {| sproto.SingleAgent := true |};
               sproto.TaskActor := Some (Self ctx) |} in
          modify (set_task (Some request));;
          emit (Tell (rm t) (AllocateRequest request))
      end

  | ResourcesAllocated m =>
      t ← get;
      emit (StartTaskSession (sproto.RA_ID m));;
      match db_StartTaskSession (db t) (sproto.RA_ID m) with
      | inr err =>
          raise (Err (errors_Wrap err "cannot start a new task session for a GC task"))
      | inl taskToken =>
          match experiment t with
          | None => raise (Panic "nil pointer dereference")
          | Some e =>
              let config := model.CheckpointStorage (model.Config e) in
              emit (ExperimentCheckpointsToGCRaw (model.ID e)
                      (Some (model.SaveExperimentBest config))
                      (Some (model.SaveTrialBest config))
                      (Some (model.SaveTrialLatest config)) true);;
              match db_ExperimentCheckpointsToGCRaw (db t) (model.ID e)
                      (Some (model.SaveExperimentBest config))
                      (Some (model.SaveTrialBest config))
                      (Some (model.SaveTrialLatest config)) true with
              | inr err => raise (Err err)
              | inl checkpoints =>
                  emit (Log (Info "starting checkpoint garbage collection"));;
                  for_each (sproto.Allocations m)
                    (λ a,
                       match taskSpec t with
                       | None => raise (Panic "nil pointer dereference")
                       | Some spec =>
                           emit (Start a
                             (tasks.SetInner
                                (tasks.GCCheckpoints (model.ID e) (model.Config e)
                                   checkpoints (gcTensorboards t))
                                {| tasks.Base := tasks.Base spec;
                                   tasks.AgentUserGroup_ := agentUserGroup t;
                                   tasks.TaskToken := taskToken;
                                   tasks.inner := tasks.inner spec |}))
                       end)
              end
          end
      end

  | ReleaseResources _ =>
      (* Ignore the release resource message and wait for the GC job to finish. *)
      mret tt

  | TaskContainerStateChanged m =>
      if decide (container.State_ (sproto.Container m) ≠ container.Terminated)
      then mret tt
      else
        match sproto.ContainerStopped m with
        | None => raise (Panic "nil pointer dereference")
        | Some stopped =>
            match sproto.Failure stopped with
            | Some _ =>
                t ← get;
                emit (Log (GCFailed (sproto.ContainerStopped m)));;
                for_each (logs t)
                  (λ log, emit (Log (ErrorText (ContainerLog_String log))))
            | None => emit (Log (Info "finished checkpoint garbage collection"))
            end;;
            emit Stop
        end

  | ContainerLogged m =>
      modify (λ t, set_logs (logs t ++ [m]) t)

  | PostStop =>
      t ← get;
      match task t with
      | Some request =>
          emit (DeleteTaskSessionByTaskID (sproto.ID request));;
          match db_DeleteTaskSessionByTaskID (db t) (sproto.ID request) with
          | Some err =>
              emit (Log (ErrorWith err "cannot delete task session for a GC task"))
          | None => mret tt
          end
      | None => mret tt
      end

  | _ => raise (Err ErrUnexpectedMessage)
  end.

End Task.
End internal.

(** ** Reading a trace *)

Section Observations.
Context `{Foreign}.

Definition opens_session (e : Effect) : bool :=
  match e with StartTaskSession _ => true | _ => false end.

Definition deletes_session (e : Effect) : bool :=
  match e with DeleteTaskSessionByTaskID _ => true | _ => false end.

Definition starts_container (e : Effect) : bool :=
  match e with Start _ _ => true | _ => false end.

Definition kills_container (e : Effect) : bool :=
  match e with Kill _ => true | _ => false end.

Definition publishes_event (e : Effect) : bool :=
  match e with Tell _ (Event _) => true | _ => false end.

Definition publishes_exited (e : Effect) : bool :=
  match e with
  | Tell _ (Event ev) => match ExitedEvent ev with Some _ => true | None => false end
  | _ => false
  end.

Definition publishes_ready (e : Effect) : bool :=
  match e with
  | Tell _ (Event ev) => match ServiceReadyEvent ev with Some _ => true | None => false end
  | _ => false
  end.

Definition releases_resources (e : Effect) : bool :=
  match e with Tell _ (ResourcesReleased _) => true | _ => false end.

Definition registers_proxy (e : Effect) : bool :=
  match e with Ask _ (Register _) => true | _ => false end.

Definition unregisters_proxy (e : Effect) : bool :=
  match e with Tell _ (Unregister _) => true | _ => false end.

Definition responds (e : Effect) : bool :=
  match e with Respond _ => true | _ => false end.

(** How many calls of a trace are of one kind. *)
Definition count (kind : Effect → bool) (t : list Effect) : nat :=
  length (List.filter kind t).

(** The lines a trace publishes as log events, in order. *)
Definition logged_line (e : Effect) : option string :=
  match e with Tell _ (Event ev) => LogEvent ev | _ => None end.

Definition logged_lines (t : list Effect) : list string := omap logged_line t.

(** The messages that ask for a kill. *)
Definition is_kill (msg : Message) : bool :=
  match msg with
  | KillNotebookRequest | KillCommandRequest | KillShellRequest
  | KillTensorboardRequest => true
  | _ => false
  end.

(** The requests that only ask for a rendering of the command. *)
Definition is_read (msg : Message) : bool :=
  match msg with
  | getSummary _ | Notebook | GetNotebookRequest | Command | GetCommandRequest
  | Shell | GetShellRequest | Tensorboard | GetTensorboardRequest => true
  | _ => false
  end.

Definition is_report (msg : Message) : bool :=
  match msg with TaskContainerStateChanged _ => true | _ => false end.

(** The state of a command that mirrors a state of its container. *)
Definition mirrors (state : container.State) : State :=
  match state with
  | container.Assigned => Assigned
  | container.Pulling => Pulling
  | container.Starting => Starting
  | container.Running => Running
  | container.Terminated => Terminated
  end.

(** The readiness checks that no line of [seen] satisfies. *)
Definition unmet (seen : list ContainerLog) (checks : gmap string command.readinessCheck)
    : gmap string command.readinessCheck :=
  filter (λ entry, Forall (λ log, ¬ command.passes log entry) seen) checks.

(** Modelled from the spec: the session store, which package [db] keeps
    outside these files.  A session is the task ID it is bound to; a call
    that the database answers without an error creates, respectively deletes,
    the session of its task ID, and deleting a missing session changes
    nothing. *)
Definition session_call (db : PgDB) (sessions : gset string) (e : Effect) : gset string :=
  match e with
  | StartTaskSession taskID =>
      match db_StartTaskSession db taskID with
      | inl _ => {[ taskID ]} ∪ sessions
      | inr _ => sessions
      end
  | DeleteTaskSessionByTaskID taskID =>
      match db_DeleteTaskSessionByTaskID db taskID with
      | None => sessions ∖ {[ taskID ]}
      | Some _ => sessions
      end
  | _ => sessions
  end.

Definition sessions_after (db : PgDB) (t : list Effect) (sessions : gset string) : gset string :=
  foldl (session_call db) sessions t.

End Observations.

(** ** A small instance

    One concrete choice for the declarations of other packages, and one
    command and one GC task, on which the statements below are run. *)

Module demo.

#[local] Instance foreign : Foreign := {|
  ContainerLog := string;
  ContainerLog_String := λ line, line;
  Allocation := nat;
  ArchiveItem := string;
  AgentUserGroup := unit;
  TaskSpecBase := unit;
  summary := State * option string * bool;
  DevicesConfig := unit;
  EnvironmentBase := unit;
  Pod := string;
  ExperimentConfigBase := unit;
  Checkpoints := list string;
  ContainerFailure := string;
  ContainerFailure_Error := λ failure, failure;
|}.

(** A summary with the state, the exit status and whether the service is ready. *)
Definition newSummary (c : command.command) : summary :=
  (command.State_of c, command.exitStatus c, command.readinessMessageSent c).

Definition generateServiceAddress (taskID : string) : string + error :=
  inl ("/proxy/" +:+ taskID +:+ "/").

Definition tensorboardServiceAddress (taskID : sproto.TaskID) : string :=
  "/proxy/" +:+ taskID +:+ "/".

Definition DefaultStringValue : string := "".

Definition Receive := command.Receive newSummary generateServiceAddress
  tensorboardServiceAddress DefaultStringValue.

Definition ctx : actor_Context :=
  {| Self := "/commands/T1";
     RegisteredTime := 1600000000;
     Address_Local := "T1";
     ActorOf := λ name, Some ("/commands/T1/" +:+ name);
     System_Get := λ name, Some ("/" +:+ name);
     GetRM := "/resourceManagers";
     Ask_Error := λ _ _, None;
     NewTaskID := "G1" |}.

(** A database that answers every call without an error. *)
Definition working_db : PgDB :=
  {| db_StartTaskSession := λ taskID, inl ("token-" +:+ taskID);
     db_DeleteTaskSessionByTaskID := λ _, None;
     db_ExperimentCheckpointsToGCRaw := λ _ _ _ _ _, inl ["c1"; "c2"] |}.

(** A database whose every call fails. *)
Definition failing_db : PgDB :=
  {| db_StartTaskSession := λ _, inr (errors_New "connection refused");
     db_DeleteTaskSessionByTaskID := λ _, Some (errors_New "connection refused");
     db_ExperimentCheckpointsToGCRaw := λ _ _ _ _ _, inr (errors_New "connection refused") |}.

(** Whether a line contains a text. *)
Fixpoint contains (needle line : string) : bool :=
  if String.prefix needle line then true
  else
    match line with
    | EmptyString => false
    | String _ rest => contains needle rest
    end.

Definition config : model.CommandConfig :=
  {| model.Description := "a notebook";
     model.Resources :=
       {| model.Slots := 1; model.Weight := 1; model.SlotsPerTrial := 1;
          model.Devices := tt; model.AgentLabel := ""; model.ResourcePool := "default";
          model.Priority := Some 42 |};
     model.Environment_ := {| model.PodSpec := None; model.EnvironmentRest := tt |} |}.

Definition spec : tasks.TaskSpec :=
  {| tasks.Base := tt; tasks.AgentUserGroup_ := None; tasks.TaskToken := "";
     tasks.inner := None |}.

(** A command as it is created: nothing scheduled, two readiness checks. *)
Definition created : command.command :=
  {| command.config := config;
     command.owner := {| command.ID := 7; command.Username := "alice" |};
     command.agentUserGroup := None;
     command.taskSpec := Some spec;
     command.taskID := "T1";
     command.userFiles := ["model.py"];
     command.additionalFiles := ["startup.sh"];
     command.readinessChecks :=
       {[ "A" := contains "ready-A"; "B" := contains "ready-B" ]};
     command.readinessMessageSent := false;
     command.metadata :=
       {[ "privateKey" := command.a_string "private";
          "publicKey" := command.a_string "public";
          "experiment_ids" := command.a_slice_of_int [1; 4294967298];
          "trial_ids" := command.a_slice_of_int [] ]};
     command.serviceAddress := None;
     command.registeredTime := 0;
     command.task := None;
     command.container := None;
     command.allocation := None;
     command.proxyNames := [];
     command.exitStatus := None;
     command.addresses := [];
     command.db := working_db;
     command.proxy := None;
     command.eventStream := None;
     command.proxyTCP := false |}.

Definition run_of (msgs : list Message) : act command.command unit :=
  deliver (Receive ctx) msgs.

(** The command after [PreStart]: its request is with the resource manager. *)
Definition started : command.command := final (Receive ctx PreStart created).

(** The request of the command, and allocations for it. *)
Definition request : sproto.AllocateRequest :=
  {| sproto.ID := "T1"; sproto.Name := "a notebook"; sproto.SlotsNeeded := 1;
     sproto.Label := ""; sproto.ResourcePool := "default";
     sproto.NonPreemptible := true;
     sproto.FittingRequirements_ := {| sproto.SingleAgent := true |};
     sproto.TaskActor := Some "/commands/T1" |}.

Definition grant (entries : list nat) : sproto.ResourcesAllocated :=
  {| sproto.RA_ID := "T1"; sproto.Allocations := entries |}.

Definition allocated (a : nat) : Message := ResourcesAllocated (grant [a]).

(** An allocation for another request. *)
Definition stale : sproto.ResourcesAllocated :=
  {| sproto.RA_ID := "T2"; sproto.Allocations := [1%nat] |}.

(** The log of a service that comes up. *)
Definition startup_log : list string := ["noise"; "ready-B"; "noise"; "ready-A"].

Definition reports (state : container.State) : sproto.TaskContainerStateChanged :=
  {| sproto.Container := {| container.ID := "k1"; container.State_ := state |};
     sproto.ContainerStarted := None;
     sproto.ContainerStopped := None |}.

Definition running_report : sproto.TaskContainerStateChanged :=
  {| sproto.Container := {| container.ID := "k1"; container.State_ := container.Running |};
     sproto.ContainerStarted :=
       Some {| sproto.Addresses :=
                 [ {| container.HostIP := "10.0.0.5"; container.HostPort := 9000 |} ] |};
     sproto.ContainerStopped := None |}.

Definition running : Message := TaskContainerStateChanged running_report.

Definition terminated_report (failure : option string) : sproto.TaskContainerStateChanged :=
  {| sproto.Container := {| container.ID := "k1"; container.State_ := container.Terminated |};
     sproto.ContainerStarted := None;
     sproto.ContainerStopped := Some {| sproto.Failure := failure |} |}.

Definition terminated (failure : option string) : Message :=
  TaskContainerStateChanged (terminated_report failure).

Definition experiment : model.Experiment :=
  {| model.ID := 12;
     model.Config :=
       {| model.CheckpointStorage :=
            {| model.SaveExperimentBest := 0; model.SaveTrialBest := 1;
               model.SaveTrialLatest := 1 |};
          model.ExperimentConfigRest := tt |} |}.

(** A GC task as it is created. *)
Definition gc_created : internal.checkpointGCTask :=
  {| internal.rm := Some "/resourceManagers";
     internal.db := working_db;
     internal.experiment := Some experiment;
     internal.gcTensorboards := true;
     internal.agentUserGroup := None;
     internal.taskSpec := Some spec;
     internal.task := None;
     internal.logs := [] |}.

Definition gc_started : internal.checkpointGCTask :=
  final (internal.Receive ctx PreStart gc_created).

(** A generator of service addresses that fails. *)
Definition no_address (taskID : string) : string + error :=
  inr (errors_New "no address").

(** A command whose request is on record and whose database is down. *)
Definition offline : command.command :=
  {| command.config := config;
     command.owner := {| command.ID := 7; command.Username := "alice" |};
     command.agentUserGroup := None;
     command.taskSpec := Some spec;
     command.taskID := "T1";
     command.userFiles := ["model.py"];
     command.additionalFiles := ["startup.sh"];
     command.readinessChecks := ∅;
     command.readinessMessageSent := false;
     command.metadata := ∅;
     command.serviceAddress := None;
     command.registeredTime := 0;
     command.task := Some request;
     command.container := None;
     command.allocation := None;
     command.proxyNames := [];
     command.exitStatus := None;
     command.addresses := [];
     command.db := failing_db;
     command.proxy := None;
     command.eventStream := None;
     command.proxyTCP := false |}.

(** A GC task whose database is down. *)
Definition gc_offline : internal.checkpointGCTask :=
  {| internal.rm := Some "/resourceManagers";
     internal.db := failing_db;
     internal.experiment := Some experiment;
     internal.gcTensorboards := true;
     internal.agentUserGroup := None;
     internal.taskSpec := Some spec;
     internal.task := None;
     internal.logs := [] |}.

(** The defaults of the task containers. *)
Definition defaults : model.TaskContainerDefaultsConfig :=
  {| model.CPUPodSpec := Some "cpu-pod"; model.GPUPodSpec := Some "gpu-pod" |}.

End demo.

(** * Properties *)

(** ** How handlers run *)

Section Runs.
Context `{Foreign} {S : Type}.

Lemma bind_run {A B : Type} (m : act S A) (k : A → act S B) (s : S) :
  (m ≫= k) s =
    match result (m s) with
    | Returned a =>
        Run (result (k a (final (m s)))) (final (k a (final (m s))))
            (trace (m s) ++ trace (k a (final (m s))))
    | Raised f => Run (Raised f) (final (m s)) (trace (m s))
    end.
Proof.
  unfold mbind, act_bind. destruct (m s) as [[a|f] s1 t1]; simpl; [|done].
  by destruct (k a s1).
Qed.

(** A loop whose body only makes a call makes one call per element. *)
Lemma for_each_emit {A : Type} (l : list A) (f : A → Effect) (s : S) :
  for_each l (λ x, emit (f x)) s = Run (Returned tt) s (f <$> l).
Proof.
  revert s. induction l as [|x l IH]; intros s; [done|].
  cbn [for_each]. rewrite bind_run. simpl. by rewrite IH.
Qed.

(** A loop whose body fails runs the body at most once. *)
Lemma for_each_raise {A : Type} (l : list A) (f : failure) (s : S) :
  for_each l (λ _, raise f) s
  = Run (match l with [] => Returned tt | _ => Raised f end) s [].
Proof. by destruct l. Qed.

End Runs.

(** Unfolds the sequencing of a handler, so that a run on given fields
    computes. *)
Ltac case_scrutinee :=
  match goal with
  | |- context [match ?x with _ => _ end] =>
      lazymatch type of x with
      | run _ _ => fail
      | _ => destruct x eqn:?
      end
  end.

Ltac run_handler :=
  repeat first
    [ rewrite for_each_emit
    | rewrite for_each_raise
    | progress (unfold mbind, mret, act_bind, act_ret, deliver; simpl)
    | case_scrutinee; try discriminate; simpl in * ].

(** Membership in a trace, call by call. *)
Ltac unfold_elem_of :=
  repeat first
    [ rewrite elem_of_cons | rewrite elem_of_app | rewrite elem_of_nil
    | rewrite list_elem_of_fmap ].

Section GC_task_facts.
Context `{Foreign}.
Variable ctx : actor_Context.

(** C9.  A GC task that is delivered [ReleaseResources] changes no field and
    makes no call; and the task stops itself exactly when it handles a
    container report of [Terminated] that carries the stop record. *)
Theorem gc_task_ignores_release (t : internal.checkpointGCTask) (msg : Message) :
  (∀ m, internal.Receive ctx (ReleaseResources m) t = Run (Returned tt) t []) ∧
  (Stop ∈ trace (internal.Receive ctx msg t) ↔
     ∃ m stopped, msg = TaskContainerStateChanged m ∧
       container.State_ (sproto.Container m) = container.Terminated ∧
       sproto.ContainerStopped m = Some stopped).
Proof.
  split; [done|].
  split.
  - destruct msg; unfold internal.Receive; run_handler;
      unfold_elem_of; intros Hin; try (by decompose [or and ex] Hin; simplify_eq).
    all: eexists _, _; split_and!; try done.
    all: by destruct (container.State_ _).
  - intros (m & stopped & -> & Hstate & Hstopped).
    unfold internal.Receive. rewrite Hstate, Hstopped. run_handler; set_solver.
Qed.

End GC_task_facts.

Section Exit_facts.
Context `{Foreign}.
Variable newSummary : command.command → summary.
Variable generateServiceAddress : string → string + error.
Variable tensorboardServiceAddress : sproto.TaskID → string.
Variable DefaultStringValue : string.
Variable ctx : actor_Context.

#[local] Abbreviation Receive :=
  (command.Receive newSummary generateServiceAddress tensorboardServiceAddress
     DefaultStringValue ctx).

#[local] Abbreviation terminate := (command.terminate newSummary ctx).
#[local] Abbreviation exit := (command.exit newSummary ctx).

Lemma count_app (kind : Effect → bool) (t1 t2 : list Effect) :
  count kind (t1 ++ t2) = (count kind t1 + count kind t2)%nat.
Proof. unfold count. by rewrite List.filter_app, length_app. Qed.

(** [exit] always returns; it sets the exit status, publishes the exited
    event, releases the resources, arms the timer and, when there is a
    request, asks for its session to be deleted. *)
Lemma exit_run (status : string) (c : command.command) :
  let c' := command.set_exitStatus (Some status) c in
  exit status c =
    Run (Returned tt) c'
      ([ Tell (command.eventStream c) (Event (exited (newSummary c') (Some status)));
         Tell (Some (GetRM ctx)) (ResourcesReleased {| sproto.RR_TaskActor := Self ctx |});
         NotifyAfter command.terminatedDuration terminateForGC ]
       ++ match command.task c with
          | Some t =>
              DeleteTaskSessionByTaskID (sproto.ID t) ::
              match db_DeleteTaskSessionByTaskID (command.db c) (sproto.ID t) with
              | Some err => [Log (ErrorWith err "cannot delete task session for a command")]
              | None => []
              end
          | None => []
          end).
Proof. unfold command.exit. by run_handler. Qed.

End Exit_facts.

(** The case analysis of a handler: every branch, with its trace in full. *)
Ltac handler_cases :=
  repeat first
    [ rewrite for_each_emit
    | rewrite for_each_raise
    | rewrite exit_run
    | progress (unfold mbind, mret, act_bind, act_ret, deliver; simpl)
    | case_scrutinee; try discriminate; simpl in * ].

(** Takes the membership of a call in a trace apart, as the hypothesis
    [Hin]. *)
Ltac intro_call :=
  repeat lazymatch goal with
         | |- _ ∈ _ → _ => fail
         | |- _ => intro
         end;
  unfold_elem_of; intros Hin; intros; decompose [or and ex] Hin; simplify_eq.

Section Command_facts.
Context `{Foreign}.
Variable newSummary : command.command → summary.
Variable generateServiceAddress : string → string + error.
Variable tensorboardServiceAddress : sproto.TaskID → string.
Variable DefaultStringValue : string.
Variable ctx : actor_Context.

#[local] Abbreviation Receive :=
  (command.Receive newSummary generateServiceAddress tensorboardServiceAddress
     DefaultStringValue ctx).

#[local] Abbreviation terminate := (command.terminate newSummary ctx).
#[local] Abbreviation exit := (command.exit newSummary ctx).


(** [terminate] for a kill request: the exit when nothing is allocated, a
    kill of the allocation otherwise. *)
Lemma terminate_run (k : Message) (c : command.command) :
  is_kill k = true →
  terminate k c =
    match command.allocation c with
    | None => exit "task is aborted without being scheduled" c
    | Some a => Run (Returned tt) c [Log (Info "task forcible terminating"); Kill a]
    end.
Proof.
  intros Hk. unfold command.terminate.
  destruct k; try done;
    unfold mbind, mret, act_bind, act_ret; simpl;
    destruct (command.allocation c); try done;
    by rewrite exit_run.
Qed.

(** Every kill request that gets as far as [terminate] leaves the fields as
    [terminate] leaves them, and makes the calls of [terminate] followed by
    at most an answer to the sender.  (A notebook that cannot generate its
    service address logs the error and does not terminate.) *)
Lemma kill_request_run (k : Message) (c : command.command) :
  is_kill k = true →
  (k = KillNotebookRequest →
     ∃ address, generateServiceAddress (command.taskID c) = inl address) →
  final (Receive k c) = final (terminate k c) ∧
  ∃ answer, trace (Receive k c) = trace (terminate k c) ++ answer ∧
            (answer = [] ∨ ∃ r, answer = [Respond r]).
Proof.
  intros Hk Haddress.
  destruct k; try done;
    unfold command.Receive, command.toNotebook, command.toShell,
      command.toTensorboard, command.assert_string, command.assert_slice_of_int;
    unfold mbind, mret, act_bind, act_ret; simpl.
  1: destruct Haddress as [address ->]; [done|].
  all: rewrite !terminate_run by done.
  all: destruct (command.allocation c); rewrite ?exit_run; simpl.
  all: run_handler; split; try done.
  all: try (by eexists; split; [|right; eexists]).
  all: by exists []; split; [|left].
Qed.

(** What a kill request leaves in the trace, by what is allocated. *)
Lemma kill_request_calls (k : Message) (c : command.command) :
  is_kill k = true →
  (k = KillNotebookRequest →
     ∃ address, generateServiceAddress (command.taskID c) = inl address) →
  let r := Receive k c in
  match command.allocation c with
  | None =>
      final r = command.set_exitStatus (Some "task is aborted without being scheduled") c ∧
      Tell (command.eventStream c)
        (Event (exited (newSummary (final r))
                  (Some "task is aborted without being scheduled"))) ∈ trace r ∧
      count publishes_exited (trace r) = 1%nat ∧
      count releases_resources (trace r) = 1%nat ∧
      count kills_container (trace r) = 0%nat ∧
      count opens_session (trace r) = 0%nat
  | Some a =>
      final r = c ∧
      Kill a ∈ trace r ∧
      count kills_container (trace r) = 1%nat ∧
      count publishes_exited (trace r) = 0%nat ∧
      count releases_resources (trace r) = 0%nat ∧
      count opens_session (trace r) = 0%nat
  end.
Proof.
  intros Hk Haddress r. subst r.
  destruct (kill_request_run k c Hk Haddress) as (-> & answer & -> & Hanswer).
  rewrite !terminate_run by done.
  destruct Hanswer as [->|[? ->]].
  all: destruct (command.allocation c); rewrite ?exit_run; simpl.
  all: destruct (command.task c); simpl;
         try destruct (db_DeleteTaskSessionByTaskID _ _).
  all: split_and!; try done.
  all: unfold_elem_of; auto.
Qed.


(** C3.  Two kill requests in succession, by what is allocated.  With no
    allocation each of the two runs the exit, so together they publish two
    exited events and release the resources twice.  With an allocation each
    forwards one kill to it, and together they publish no exited event and
    release nothing. *)
Theorem two_kills_in_succession (k1 k2 : Message) (c : command.command) :
  is_kill k1 = true →
  is_kill k2 = true →
  (KillNotebookRequest ∈ [k1; k2] →
     ∃ address, generateServiceAddress (command.taskID c) = inl address) →
  let r1 := Receive k1 c in
  let r2 := Receive k2 (final r1) in
  match command.allocation c with
  | None =>
      count publishes_exited (trace r1 ++ trace r2) = 2%nat ∧
      count releases_resources (trace r1 ++ trace r2) = 2%nat ∧
      count kills_container (trace r1 ++ trace r2) = 0%nat
  | Some a =>
      final r2 = c ∧
      count kills_container (trace r1 ++ trace r2) = 2%nat ∧
      count publishes_exited (trace r1 ++ trace r2) = 0%nat ∧
      count releases_resources (trace r1 ++ trace r2) = 0%nat
  end.
Proof.
  intros Hk1 Hk2 Haddress r1 r2.
  assert (Haddress1 : k1 = KillNotebookRequest →
            ∃ address, generateServiceAddress (command.taskID c) = inl address)
    by (intros ->; apply Haddress; set_solver).
  pose proof (kill_request_calls k1 c Hk1 Haddress1) as H1. simpl in H1.
  fold r1 in H1.
  assert (Hsame : command.allocation (final r1) = command.allocation c
                  ∧ command.taskID (final r1) = command.taskID c).
  { destruct (command.allocation c) eqn:Ha; destruct H1 as [Hfinal _];
      by rewrite Hfinal. }
  destruct Hsame as [Hallocation HtaskID].
  assert (Haddress2 : k2 = KillNotebookRequest →
            ∃ address, generateServiceAddress (command.taskID (final r1)) = inl address)
    by (intros ->; rewrite HtaskID; apply Haddress; set_solver).
  pose proof (kill_request_calls k2 (final r1) Hk2 Haddress2) as H2. simpl in H2.
  fold r2 in H2. rewrite Hallocation in H2.
  rewrite !count_app.
  destruct (command.allocation c).
  - destruct H1 as (Hfinal1 & _ & -> & -> & -> & _).
    destruct H2 as (Hfinal2 & _ & -> & -> & -> & _).
    by rewrite Hfinal2, Hfinal1.
  - destruct H1 as (_ & _ & -> & -> & -> & _).
    by destruct H2 as (_ & _ & -> & -> & -> & _).
Qed.

(** The calls of a loop that starts one container per element are all
    starts. *)
Lemma filter_starts (l : list Allocation) (launch : tasks.TaskSpec) :
  List.filter starts_container ((λ a, Start a launch) <$> l)
  = (λ a, Start a launch) <$> l.
Proof. induction l as [|x l IH]; [done|]. cbn. by f_equal. Qed.

(** C1.  An allocation for a request other than the outstanding one, or with
    no request on record, is dropped by the command: the handler returns,
    the fields are as before, and the one call is the info line of the log,
    so no session is opened, no container started and no event published.
    The GC task does not look at the request ID: whatever request is on
    record, it handles the message the same way, and its first call opens a
    session under the ID of the message. *)
Theorem stale_allocation_dropped_by_command
    (c : command.command) (m : sproto.ResourcesAllocated)
    (t : internal.checkpointGCTask) :
  (∀ request, command.task c = Some request → sproto.RA_ID m ≠ sproto.ID request) →
  let r := Receive (ResourcesAllocated m) c in
  (r = Run (Returned tt) c
         [Log (Info "ignoring resource allocation since the command has exited.")] ∧
   count opens_session (trace r) = 0%nat ∧
   count starts_container (trace r) = 0%nat ∧
   count publishes_event (trace r) = 0%nat) ∧
  (∀ request,
     let g := internal.Receive ctx (ResourcesAllocated m) t in
     let g' := internal.Receive ctx (ResourcesAllocated m) (internal.set_task request t) in
     result g' = result g ∧ trace g' = trace g ∧
     ∃ rest, trace g = StartTaskSession (sproto.RA_ID m) :: rest).
Proof.
  intros Hstale r. subst r. split.
  - unfold command.Receive, command.receiveSchedulerMsg.
    run_handler; try done.
    all: exfalso; by eapply Hstale.
  - intros request. unfold internal.Receive. run_handler; eauto.
Qed.

(** C8.  An allocation for the outstanding request.  The command panics on
    an allocation that does not hold exactly one entry, before any call, so
    that no session is opened and no container started; with one entry, a
    session that opens and a task specification, it starts that one
    container.  The GC task, when the session opens and the checkpoints are
    read, starts one container per entry, in the order of the entries. *)
Theorem one_start_per_allocation_entry
    (c : command.command) (request : sproto.AllocateRequest)
    (m : sproto.ResourcesAllocated) (t : internal.checkpointGCTask) :
  command.task c = Some request →
  sproto.RA_ID m = sproto.ID request →
  let r := Receive (ResourcesAllocated m) c in
  let g := internal.Receive ctx (ResourcesAllocated m) t in
  (length (sproto.Allocations m) ≠ 1%nat →
     r = Run (Raised (Panic "Command should only receive an allocation of one container"))
           c []) ∧
  (length (sproto.Allocations m) = 1%nat →
   ∀ token spec,
     db_StartTaskSession (command.db c) (sproto.ID request) = inl token →
     command.taskSpec c = Some spec →
     result r = Returned tt ∧
     count starts_container (trace r) = length (sproto.Allocations m) ∧
     ∃ launch, List.filter starts_container (trace r)
               = (λ a, Start a launch) <$> sproto.Allocations m) ∧
  (∀ token e checkpoints spec,
     db_StartTaskSession (internal.db t) (sproto.RA_ID m) = inl token →
     internal.experiment t = Some e →
     db_ExperimentCheckpointsToGCRaw (internal.db t) (model.ID e)
       (Some (model.SaveExperimentBest (model.CheckpointStorage (model.Config e))))
       (Some (model.SaveTrialBest (model.CheckpointStorage (model.Config e))))
       (Some (model.SaveTrialLatest (model.CheckpointStorage (model.Config e))))
       true = inl checkpoints →
     internal.taskSpec t = Some spec →
     result g = Returned tt ∧
     count starts_container (trace g) = length (sproto.Allocations m) ∧
     ∃ launch, List.filter starts_container (trace g)
               = (λ a, Start a launch) <$> sproto.Allocations m).
Proof.
  intros Htask Hid r g. subst r g. split_and!.
  - intros Hlength.
    unfold command.Receive, command.receiveSchedulerMsg, mbind, mret, act_bind, act_ret.
    simpl. rewrite Htask, decide_True by done.
    by destruct (sproto.Allocations m) as [|a [|]].
  - intros Hlength token spec Hsession Hspec.
    unfold command.Receive, command.receiveSchedulerMsg, mbind, mret, act_bind, act_ret.
    simpl. rewrite Htask, decide_True by done.
    destruct (sproto.Allocations m) as [|a [|]]; try done.
    simpl. rewrite Hsession. simpl. rewrite Hspec. simpl.
    split_and!; try done. by eexists.
  - intros token e checkpoints spec Hsession Hexperiment Hcheckpoints Hspec.
    unfold internal.Receive. unfold mbind, mret, act_bind, act_ret. simpl.
    rewrite Hsession, Hexperiment. simpl. rewrite Hcheckpoints, Hspec. simpl.
    rewrite for_each_emit. simpl.
    split_and!; [done| |eexists; apply filter_starts].
    unfold count. simpl. by rewrite filter_starts, length_fmap.
Qed.

(** C10.  A container report of [Assigned], [Pulling] or [Starting] replaces
    the stored container and does nothing else: the handler returns, makes no
    call (so publishes no event and registers or unregisters nothing with the
    proxy), and leaves every other field as it was; the command's state is
    then the reported one. *)
Theorem early_report_only_replaces_container
    (c : command.command) (m : sproto.TaskContainerStateChanged) :
  container.State_ (sproto.Container m) ≠ container.Running →
  container.State_ (sproto.Container m) ≠ container.Terminated →
  let r := Receive (TaskContainerStateChanged m) c in
  r = Run (Returned tt) (command.set_container (Some (sproto.Container m)) c) [] ∧
  command.container (final r) = Some (sproto.Container m) ∧
  command.proxyNames (final r) = command.proxyNames c ∧
  command.addresses (final r) = command.addresses c ∧
  command.exitStatus (final r) = command.exitStatus c ∧
  command.readinessChecks (final r) = command.readinessChecks c ∧
  command.readinessMessageSent (final r) = command.readinessMessageSent c ∧
  command.allocation (final r) = command.allocation c ∧
  command.task (final r) = command.task c ∧
  match container.State_ (sproto.Container m) with
  | container.Assigned => command.State_of (final r) = Assigned
  | container.Pulling => command.State_of (final r) = Pulling
  | _ => command.State_of (final r) = Starting
  end.
Proof.
  intros Hrunning Hterminated r. subst r. unfold command.Receive, command.State_of.
  destruct (container.State_ (sproto.Container m)) eqn:Hstate; try done.
  all: run_handler; by rewrite ?Hstate.
Qed.

(** C5.  On a report of [Running] the command registers each reported
    address with the proxy and keeps one name per registration, the service
    ID it registered.  On a report of [Terminated] the first calls unregister
    every name kept, in order; only then is the exited event published and
    are the resources released, and no later call touches the proxy; the
    names kept are empty afterwards. *)
Theorem proxies_unregistered_before_exit
    (c0 c : command.command) (m1 m2 : sproto.TaskContainerStateChanged)
    (started : sproto.TaskContainerStarted) (stopped : sproto.TaskContainerStopped) :
  container.State_ (sproto.Container m1) = container.Running →
  sproto.ContainerStarted m1 = Some started →
  container.State_ (sproto.Container m2) = container.Terminated →
  sproto.ContainerStopped m2 = Some stopped →
  let r1 := Receive (TaskContainerStateChanged m1) c0 in
  let r2 := Receive (TaskContainerStateChanged m2) c in
  (List.filter registers_proxy (trace r1)
     = (λ a, Ask (command.proxy c0) (Register (command.registration c0 a)))
         <$> sproto.Addresses started ∧
   command.proxyNames (final r1)
     = (λ a, proxy.R_ServiceID (command.registration c0 a)) <$> sproto.Addresses started) ∧
  (∃ status rest,
     trace r2
       = ((λ name, Tell (command.proxy c) (Unregister {| proxy.ServiceID := name |}))
            <$> command.proxyNames c)
         ++ Tell (command.eventStream c) (Event (exited (newSummary (final r2)) (Some status)))
         :: Tell (Some (GetRM ctx)) (ResourcesReleased {| sproto.RR_TaskActor := Self ctx |})
         :: rest ∧
     count unregisters_proxy rest = 0%nat ∧
     count registers_proxy rest = 0%nat ∧
     command.exitStatus (final r2) = Some status) ∧
  command.proxyNames (final r2) = [].
Proof.
  intros Hrunning Hstarted Hterminated Hstopped r1 r2. subst r1 r2.
  unfold command.Receive. rewrite Hrunning, Hterminated, Hstarted, Hstopped.
  unfold mbind, mret, act_bind, act_ret. simpl.
  rewrite !for_each_emit. simpl. rewrite !exit_run. simpl.
  split_and!.
  - rewrite List.filter_app. simpl. rewrite app_nil_r.
    induction (sproto.Addresses started) as [|a l IH]; [done|].
    cbn. by f_equal.
  - done.
  - eexists _, _. split_and!; [done| | |done].
    all: destruct (command.task c); simpl;
      by try destruct (db_DeleteTaskSessionByTaskID _ _).
  - done.
Qed.

(** *** Readiness *)

Lemma unmet_lookup (seen : list ContainerLog) (checks : gmap string command.readinessCheck)
    (name : string) (check : command.readinessCheck) :
  unmet seen checks !! name = Some check ↔
  checks !! name = Some check ∧ Forall (λ log, check log ≠ true) seen.
Proof. unfold unmet. by rewrite map_lookup_filter_Some. Qed.

Lemma unmet_nil (checks : gmap string command.readinessCheck) : unmet [] checks = checks.
Proof.
  apply map_eq. intros name. apply option_eq. intros check.
  rewrite unmet_lookup. naive_solver.
Qed.

Lemma unmet_app (seen more : list ContainerLog) (checks : gmap string command.readinessCheck) :
  unmet (seen ++ more) checks = unmet more (unmet seen checks).
Proof.
  apply map_eq. intros name. apply option_eq. intros check.
  rewrite !unmet_lookup, Forall_app. naive_solver.
Qed.

Lemma unmet_empty (seen : list ContainerLog) : unmet seen ∅ = ∅.
Proof. apply map_filter_empty. Qed.

(** Deleting the entries that accept the line leaves those that do not. *)
Lemma delete_passing (log : ContainerLog) (checks : gmap string command.readinessCheck) :
  foldl (λ m entry, delete entry.1 m) checks
    (filter (command.passes log) (map_to_list checks))
  = unmet [log] checks.
Proof.
  assert (Hfold : ∀ (l : list (string * command.readinessCheck))
                     (m : gmap string command.readinessCheck) name,
            foldl (λ m entry, delete entry.1 m) m l !! name
            = if decide (name ∈ l.*1) then None else m !! name).
  { induction l as [|entry l IH]; intros m name; simpl; [done|].
    rewrite IH. destruct (decide (name ∈ l.*1)) as [Hin|Hin].
    - by rewrite decide_True by (apply elem_of_cons; auto).
    - destruct (decide (name = entry.1)) as [->|Hne].
      + rewrite lookup_delete_eq. by rewrite decide_True by apply list_elem_of_here.
      + rewrite lookup_delete_ne by done. rewrite decide_False; [done|].
        rewrite elem_of_cons. by intros [|]. }
  apply map_eq. intros name. rewrite Hfold. apply option_eq. intros check.
  rewrite unmet_lookup, Forall_singleton.
  case_decide as Hin.
  - split; [done|]. intros [Hname Hcheck]. exfalso.
    apply list_elem_of_fmap in Hin as ([name' check'] & -> & Hin).
    apply list_elem_of_filter in Hin as [Hpasses Hin].
    apply elem_of_map_to_list in Hin. simpl in *. by simplify_eq.
  - split; [|naive_solver]. intros Hname. split; [done|]. intros Hcheck.
    apply Hin. apply list_elem_of_fmap. exists (name, check). split; [done|].
    apply list_elem_of_filter. split; [done|]. by apply elem_of_map_to_list.
Qed.

Lemma set_readinessChecks_same (c : command.command) :
  command.set_readinessChecks (command.readinessChecks c) c = c.
Proof. by destruct c. Qed.

(** [readinessChecksPass] leaves the checks the line does not satisfy, and
    answers whether none is left. *)
Lemma readinessChecksPass_run (log : ContainerLog) (c : command.command) :
  let left := unmet [log] (command.readinessChecks c) in
  command.readinessChecksPass log c =
    Run (Returned (bool_decide (size left = 0%nat)))
      (command.set_readinessChecks left c)
      ((λ entry : string * command.readinessCheck,
          Log (Info ("readiness check passed: " +:+ entry.1)))
         <$> filter (command.passes log) (map_to_list (command.readinessChecks c))).
Proof.
  assert (Hloop : ∀ (l : list (string * command.readinessCheck)) c,
    for_each l
      (λ entry,
         modify (λ c, command.set_readinessChecks
                        (delete entry.1 (command.readinessChecks c)) c);;
         emit (Log (Info ("readiness check passed: " +:+ entry.1)))) c
    = Run (Returned tt)
        (command.set_readinessChecks
           (foldl (λ m entry, delete entry.1 m) (command.readinessChecks c) l) c)
        ((λ entry : string * command.readinessCheck,
            Log (Info ("readiness check passed: " +:+ entry.1))) <$> l)).
  { induction l as [|entry l IH]; intros c'.
    - simpl. by rewrite set_readinessChecks_same.
    - cbn [for_each]. rewrite bind_run. unfold mbind, act_bind. simpl.
      by rewrite IH. }
  intros left. unfold command.readinessChecksPass.
  unfold mbind, mret, act_bind, act_ret. simpl. rewrite Hloop. simpl.
  by rewrite delete_passing, app_nil_r.
Qed.

Lemma count_fmap_none {A : Type} (kind : Effect → bool) (f : A → Effect) (l : list A) :
  (∀ x, kind (f x) = false) → count kind (f <$> l) = 0%nat.
Proof.
  intros Hkind. unfold count. induction l as [|x l IH]; [done|].
  cbn. by rewrite Hkind.
Qed.

(** A command that has announced readiness has no check left.  It holds of a
    command as created, and every log line keeps it. *)
Definition announced_only_when_met (c : command.command) : Prop :=
  command.readinessMessageSent c = true → command.readinessChecks c = ∅.

(** One log line. *)
Lemma log_line_run (line : ContainerLog) (c : command.command) :
  announced_only_when_met c →
  let r := Receive (ContainerLogged line) c in
  let left := unmet [line] (command.readinessChecks c) in
  result r = Returned tt ∧
  command.readinessChecks (final r) = left ∧
  (command.readinessMessageSent (final r) = true ↔
     command.readinessMessageSent c = true ∨ left = ∅) ∧
  (count publishes_ready (trace r) ≤ 1)%nat ∧
  (count publishes_ready (trace r) = 1%nat ↔
     command.readinessMessageSent c = false ∧ left = ∅).
Proof.
  intros Hmet r left. subst r. unfold command.Receive.
  unfold mbind, mret, act_bind, act_ret. simpl.
  destruct (command.readinessMessageSent c) eqn:Hsent; simpl.
  - subst left. rewrite Hmet by done. rewrite unmet_empty.
    unfold count. simpl. split_and!; try done; try lia; naive_solver.
  - rewrite readinessChecksPass_run. simpl. fold left.
    rewrite <-(map_size_empty_iff left).
    destruct (bool_decide (size left = 0%nat)) eqn:Hleft; simpl.
    + apply bool_decide_eq_true in Hleft.
      rewrite !count_app, count_fmap_none by done. unfold count. simpl.
      split_and!; try done; try lia; naive_solver.
    + apply bool_decide_eq_false in Hleft.
      rewrite !count_app, count_fmap_none by done. unfold count. simpl.
      split_and!; try done; try lia; naive_solver.
Qed.

(** A run of log lines. *)
Lemma log_lines_run (lines : list ContainerLog) (c : command.command) :
  announced_only_when_met c →
  let r := deliver Receive (ContainerLogged <$> lines) c in
  let left := unmet lines (command.readinessChecks c) in
  result r = Returned tt ∧
  command.readinessChecks (final r) = left ∧
  (command.readinessMessageSent (final r) = true ↔
     command.readinessMessageSent c = true ∨ (lines ≠ [] ∧ left = ∅)) ∧
  (count publishes_ready (trace r) ≤ 1)%nat ∧
  (count publishes_ready (trace r) = 1%nat ↔
     command.readinessMessageSent c = false ∧ lines ≠ [] ∧ left = ∅) ∧
  announced_only_when_met (final r).
Proof.
  revert c. induction lines as [|line lines IH]; intros c Hmet r left; subst r left.
  - simpl. rewrite unmet_nil. unfold count. simpl.
    split_and!; try done; try lia; naive_solver.
  - unfold deliver. cbn [fmap list_fmap for_each]. rewrite bind_run.
    destruct (log_line_run line c Hmet) as (Hresult & Hchecks & Hsent & Hle & Hcount).
    rewrite Hresult. cbv beta iota.
    set (c1 := final (Receive (ContainerLogged line) c)) in *.
    assert (Hmet1 : announced_only_when_met c1).
    { intros Hsent1. rewrite Hchecks. apply Hsent in Hsent1 as [Hyes|Hnone]; [|done].
      rewrite Hmet by done. apply unmet_empty. }
    destruct (IH c1 Hmet1) as (IHresult & IHchecks & IHsent & IHle & IHcount & IHmet).
    unfold deliver in *.
    change (list_fmap ContainerLog Message ContainerLogged lines)
      with (ContainerLogged <$> lines).
    set (rest := for_each (ContainerLogged <$> lines) Receive c1) in *.
    assert (Hunmet : unmet (line :: lines) (command.readinessChecks c)
                     = unmet lines (command.readinessChecks c1)).
    { by rewrite Hchecks, <-unmet_app. }
    cbn [result final trace]. rewrite Hunmet, count_app.
    assert (Hlast : lines = [] → unmet lines (command.readinessChecks c1)
                                 = command.readinessChecks c1).
    { intros ->. apply unmet_nil. }
    assert (Hgone : command.readinessChecks c1 = ∅ →
                    unmet lines (command.readinessChecks c1) = ∅).
    { intros ->. apply unmet_empty. }
    rewrite <-Hchecks in Hsent, Hcount.
    assert (Hcons : line :: lines ≠ []) by done.
    assert (Hlines : lines = [] ∨ lines ≠ []) by (destruct lines; auto).
    assert (Hnone : command.readinessChecks c1 = ∅ ∨ command.readinessChecks c1 ≠ ∅).
    { rewrite <-map_size_empty_iff. destruct (size (command.readinessChecks c1)); auto. }
    set (n1 := count publishes_ready (trace (Receive (ContainerLogged line) c))) in *.
    set (n2 := count publishes_ready (trace rest)) in *.
    set (U := unmet lines (command.readinessChecks c1)) in *.
    clearbody n1 n2 U rest. clear IH Hunmet Hresult Hmet Hmet1 Hchecks.
    assert (Hn1 : n1 = 0%nat ∨ n1 = 1%nat) by lia.
    assert (Hn2 : n2 = 0%nat ∨ n2 = 1%nat) by lia.
    destruct (command.readinessMessageSent c);
      destruct (command.readinessMessageSent c1);
      destruct Hlines as [Hl|Hl]; destruct Hnone as [Hn|Hn];
      destruct Hn1 as [->| ->]; destruct Hn2 as [->| ->];
      split_and!; try done; try lia; try (intuition (try congruence; try lia)).
Qed.

(** C6.  Log lines delivered to a command that has not announced
    readiness.  Each line removes from the checks exactly those it satisfies.
    The line that publishes the ready event is the first one after which no
    check is left, whatever lines came before; it publishes it once; and no
    later line publishes it again.  So a run of lines publishes the event
    once when its lines satisfy every check between them, and not at all
    otherwise. *)
Theorem ready_announced_exactly_once
    (c : command.command) (lines more : list ContainerLog) :
  command.readinessMessageSent c = false →
  let checks := command.readinessChecks c in
  let r := deliver Receive (ContainerLogged <$> lines) c in
  result r = Returned tt ∧
  command.readinessChecks (final r) = unmet lines checks ∧
  (∀ i line, lines !! i = Some line →
     let before := final (deliver Receive (ContainerLogged <$> take i lines) c) in
     let step := Receive (ContainerLogged line) before in
     command.readinessChecks (final step)
       = unmet [line] (command.readinessChecks before) ∧
     (count publishes_ready (trace step) ≤ 1)%nat ∧
     (count publishes_ready (trace step) = 1%nat ↔
        unmet (take (S i) lines) checks = ∅ ∧
        ∀ j, (j < i)%nat → unmet (take (S j) lines) checks ≠ ∅)) ∧
  (count publishes_ready (trace r) ≤ 1)%nat ∧
  (count publishes_ready (trace r) = 1%nat ↔ lines ≠ [] ∧ unmet lines checks = ∅) ∧
  (count publishes_ready (trace r) = 1%nat →
     count publishes_ready
       (trace (deliver Receive (ContainerLogged <$> more) (final r))) = 0%nat).
Proof.
  intros Hsent checks r.
  assert (Hmet : announced_only_when_met c) by (intros ?; congruence).
  destruct (log_lines_run lines c Hmet)
    as (Hresult & Hchecks & Hsent' & Hle & Hcount & Hmet').
  fold r in Hresult, Hchecks, Hsent', Hle, Hcount, Hmet'. fold checks in Hchecks, Hsent', Hcount.
  split_and!; try done.
  - intros i line Hline before step.
    destruct (log_lines_run (take i lines) c Hmet)
      as (_ & Hchecks_i & Hsent_i & _ & _ & Hmet_i).
    fold before in Hchecks_i, Hsent_i, Hmet_i. fold checks in Hchecks_i, Hsent_i.
    destruct (log_line_run line before Hmet_i) as (_ & Hstep & _ & Hle_i & Hcount_i).
    fold step in Hstep, Hle_i, Hcount_i.
    split_and!; try done.
    rewrite Hcount_i, Hchecks_i, <-unmet_app, <-(take_S_r lines i line Hline).
    rewrite Hsent in Hsent_i.
    split.
    + intros [Hnot Hnone]. split; [done|]. intros j Hj Hempty.
      assert (Htrue : command.readinessMessageSent before = true).
      { apply Hsent_i. right. split.
        - intros Hnil. apply take_nil_inv in Hnil as [->| ->]; [lia|done].
        - replace i with (S j + (i - S j))%nat by lia.
          by rewrite <-take_take_drop, unmet_app, Hempty, unmet_empty. }
      congruence.
    + intros [Hnone Hfirst]. split; [|done].
      destruct (command.readinessMessageSent before) eqn:Hbefore; [|done].
      destruct Hsent_i as [Hsent_i _].
      destruct Hsent_i as [|[Hnil Hempty]]; [done..|].
      destruct i as [|j]; [done|]. destruct (Hfirst j); [lia|done].
  - rewrite Hcount. naive_solver.
  - intros Hone. apply Hcount in Hone as (_ & Hlines & Hnone).
    assert (Hready : command.readinessMessageSent (final r) = true)
      by (apply Hsent'; auto).
    destruct (log_lines_run more (final r) Hmet') as (_ & _ & _ & Hle_m & Hcount_m & _).
    rewrite Hready in Hcount_m.
    destruct (count publishes_ready
                (trace (deliver Receive (ContainerLogged <$> more) (final r))))
      as [|[|]]; [done| |lia].
    by destruct Hcount_m as [[] _].
Qed.

(** *** Sessions *)





End Command_facts.

(** ** More on the command *)

Section More_command_facts.
Context `{Foreign}.
Variable newSummary : command.command → summary.
Variable generateServiceAddress : string → string + error.
Variable tensorboardServiceAddress : sproto.TaskID → string.
Variable DefaultStringValue : string.
Variable ctx : actor_Context.

#[local] Abbreviation Receive :=
  (command.Receive newSummary generateServiceAddress tensorboardServiceAddress
     DefaultStringValue ctx).
#[local] Abbreviation terminate := (command.terminate newSummary ctx).

(** X1.  After a container report the command holds the reported container
    and its state mirrors the reported one, whatever its exit status and
    also when the handler panics on a missing start or stop record. *)
Theorem state_mirrors_last_report
    (c : command.command) (m : sproto.TaskContainerStateChanged) :
  let r := Receive (TaskContainerStateChanged m) c in
  command.container (final r) = Some (sproto.Container m) ∧
  command.State_of (final r) = mirrors (container.State_ (sproto.Container m)).
Proof.
  intros r. subst r. unfold command.Receive, command.State_of.
  destruct (container.State_ (sproto.Container m)) eqn:Hstate;
    handler_cases; by rewrite ?Hstate.
Qed.

(** X2.  A report of [Terminated] with its stop record ends the command:
    the exit status is the text of the reported failure, or that the command
    exited successfully when there is none; one exited event carries it,
    with the summary of the command as it is left; the resources are
    released once; the timer for the garbage collection is set to 24 hours;
    and the session of the request on record is deleted. *)
Theorem terminated_report_exits
    (c : command.command) (m : sproto.TaskContainerStateChanged)
    (stopped : sproto.TaskContainerStopped) :
  container.State_ (sproto.Container m) = container.Terminated →
  sproto.ContainerStopped m = Some stopped →
  let r := Receive (TaskContainerStateChanged m) c in
  let status :=
    match sproto.Failure stopped with
    | Some failure => ContainerFailure_Error failure
    | None => "command exited successfully"
    end in
  result r = Returned tt ∧
  command.exitStatus (final r) = Some status ∧
  command.State_of (final r) = Terminated ∧
  Tell (command.eventStream c) (Event (exited (newSummary (final r)) (Some status)))
    ∈ trace r ∧
  count publishes_exited (trace r) = 1%nat ∧
  count releases_resources (trace r) = 1%nat ∧
  NotifyAfter 86400000000000 terminateForGC ∈ trace r ∧
  (∀ request, command.task c = Some request →
     DeleteTaskSessionByTaskID (sproto.ID request) ∈ trace r).
Proof.
  intros Hstate Hstopped r status. subst r status.
  unfold command.Receive, command.State_of. rewrite Hstate, Hstopped.
  unfold mbind, mret, act_bind, act_ret. simpl.
  rewrite for_each_emit, exit_run. simpl. rewrite Hstate.
  rewrite !count_app, !count_fmap_none by done.
  split_and!; try done.
  - unfold_elem_of. tauto.
  - by destruct (command.task c); simpl;
      try destruct (db_DeleteTaskSessionByTaskID _ _).
  - by destruct (command.task c); simpl;
      try destruct (db_DeleteTaskSessionByTaskID _ _).
  - unfold_elem_of. right. right. right. by left.
  - intros request ->. unfold_elem_of. right. right. right. right. by left.
Qed.

(** X3.  [PreStart] records the request it builds from the configuration:
    for the task ID of the command, not preemptible, on a single agent.  It
    asks the resource manager for it; when the answer is an error the
    handler fails with that error and announces nothing, the request staying
    on record; otherwise it sets the priority and publishes the one
    scheduled event. *)
Theorem PreStart_requests_allocation (c : command.command) :
  let r := Receive PreStart c in
  ∃ request,
    command.task (final r) = Some request ∧
    sproto.ID request = command.taskID c ∧
    sproto.SlotsNeeded request = model.Slots (model.Resources (command.config c)) ∧
    sproto.NonPreemptible request = true ∧
    sproto.SingleAgent (sproto.FittingRequirements_ request) = true ∧
    Ask (Some (GetRM ctx)) (AllocateRequest request) ∈ trace r ∧
    command.allocation (final r) = command.allocation c ∧
    match Ask_Error ctx (GetRM ctx) (AllocateRequest request) with
    | Some err =>
        result r = Raised (Err err) ∧
        count publishes_event (trace r) = 0%nat ∧
        length (trace r) = 2%nat
    | None =>
        result r = Returned tt ∧
        count publishes_event (trace r) = 1%nat ∧
        Tell (command.eventStream (final r))
          (Event (scheduled (newSummary (final r)) (command.taskID c))) ∈ trace r ∧
        Tell (Some (GetRM ctx))
          (SetGroupPriority
             {| sproto.Priority := model.Priority (model.Resources (command.config c));
                sproto.Handler := Self ctx |}) ∈ trace r
    end.
Proof.
  intros r. subst r. unfold command.Receive.
  unfold mbind, mret, act_bind, act_ret. simpl.
  eexists. destruct (Ask_Error ctx _ _) eqn:Hanswer; simpl.
  all: split_and!; try reflexivity; try (unfold_elem_of; tauto).
  all: rewrite Hanswer; split_and!; try done; unfold_elem_of; tauto.
Qed.

(** X4.  [getSummary] answers with the summary exactly when the filter is
    empty or is the user name of the owner; it never changes a field. *)
Theorem getSummary_filters_by_owner (c : command.command) (userFilter : string) :
  let r := Receive (getSummary userFilter) c in
  final r = c ∧
  result r = Returned tt ∧
  (trace r = [Respond (Summary (newSummary c))] ∨ trace r = []) ∧
  (trace r = [Respond (Summary (newSummary c))] ↔
     userFilter = "" ∨ command.Username (command.owner c) = userFilter).
Proof.
  intros r. subst r. unfold command.Receive.
  unfold mbind, mret, act_bind, act_ret. simpl.
  destruct (decide _) as [Hyes|Hno]; simpl; split_and!; auto.
  - tauto.
  - split; [done|tauto].
Qed.

(** X5.  A request that only asks for a rendering changes no field, and
    makes at most one call, an answer to the sender or a line of the log. *)
Theorem reads_change_nothing (msg : Message) (c : command.command) :
  is_read msg = true →
  let r := Receive msg c in
  final r = c ∧
  (length (trace r) ≤ 1)%nat ∧
  (∀ e, e ∈ trace r → responds e = true ∨ ∃ err, e = Log (Error_ err)).
Proof.
  intros Hread r. subst r.
  destruct msg; try done; unfold command.Receive, command.toNotebook,
    command.toShell, command.toTensorboard, command.assert_string,
    command.assert_slice_of_int; handler_cases; split_and!; try done; try lia.
  all: intros call; unfold_elem_of; intros Hin; decompose [or] Hin; try done;
    subst; eauto.
Qed.

(** X6.  A kill request for a notebook whose service address cannot be
    generated is not carried out: the error is logged, wrapped, and nothing
    else happens; no field changes, nothing is killed and nothing exits. *)
Theorem notebook_kill_needs_address (c : command.command) (err : error) :
  generateServiceAddress (command.taskID c) = inr err →
  Receive KillNotebookRequest c
  = Run (Returned tt) c
      [Log (Error_ (errors_Wrap err
                      ("generating service address for " +:+ command.taskID c)))].
Proof.
  intros Haddress. unfold command.Receive, command.toNotebook.
  unfold mbind, mret, act_bind, act_ret. simpl. by rewrite Haddress.
Qed.

(** X7.  A shell is rendered only when its metadata holds both keys as
    strings; otherwise the type assertion panics.  The request for the
    rendering then makes no call; the kill request panics too, but only
    after [terminate] has run, so the kill is carried out and the sender gets
    no answer. *)
Theorem shell_needs_its_keys (c : command.command) :
  let has_keys :=
    ∃ private public,
      command.metadata c !! "privateKey" = Some (command.a_string private) ∧
      command.metadata c !! "publicKey" = Some (command.a_string public) in
  let r := Receive Shell c in
  let k := Receive KillShellRequest c in
  (has_keys → result r = Returned tt ∧ count responds (trace r) = 1%nat ∧
              result k = Returned tt) ∧
  (¬ has_keys →
     r = Run (Raised (Panic "interface conversion")) c [] ∧
     result k = Raised (Panic "interface conversion") ∧
     final k = final (terminate KillShellRequest c) ∧
     trace k = trace (terminate KillShellRequest c)).
Proof.
  intros has_keys r k. subst has_keys r k.
  unfold command.Receive, command.toShell, command.assert_string.
  unfold mbind, mret, act_bind, act_ret. simpl.
  rewrite !terminate_run by done.
  split.
  - intros (private & public & Hprivate & Hpublic). rewrite Hprivate, Hpublic.
    simpl. destruct (command.allocation c); rewrite ?exit_run; simpl.
    + rewrite Hprivate, Hpublic. by simpl.
    + rewrite Hprivate, Hpublic. by simpl.
  - intros Hkeys.
    destruct (command.allocation c); rewrite ?exit_run; simpl.
    all: destruct (command.metadata c !! "privateKey") as [[private| |]|] eqn:Hprivate;
      simpl; rewrite ?Hprivate; try done.
    all: destruct (command.metadata c !! "publicKey") as [[public| |]|] eqn:Hpublic;
      simpl; rewrite ?Hpublic; rewrite ?app_nil_r; try done.
    all: destruct Hkeys; eauto.
Qed.


(** X9.  When the session cannot be opened, an allocation that is otherwise
    in order starts nothing: the handler fails with the error of the
    database, wrapped, after the one call to the database, and no field
    changes.  The command still counts as not allocated, so a kill request
    that follows aborts it. *)
Theorem session_failure_starts_nothing
    (c : command.command) (request : sproto.AllocateRequest)
    (m : sproto.ResourcesAllocated) (a : Allocation) (err : error) :
  command.task c = Some request →
  sproto.RA_ID m = sproto.ID request →
  sproto.Allocations m = [a] →
  command.allocation c = None →
  db_StartTaskSession (command.db c) (sproto.ID request) = inr err →
  let r := Receive (ResourcesAllocated m) c in
  let k := Receive KillCommandRequest (final r) in
  r = Run (Raised (Err (errors_Wrap err "cannot start a new task session"))) c
        [StartTaskSession (sproto.ID request)] ∧
  command.exitStatus (final k) = Some "task is aborted without being scheduled" ∧
  count kills_container (trace k) = 0%nat.
Proof.
  intros Htask Hid Hallocations Hnone Hsession r k.
  assert (Hr : r = Run (Raised (Err (errors_Wrap err "cannot start a new task session")))
                     c [StartTaskSession (sproto.ID request)]).
  { subst r. unfold command.Receive, command.receiveSchedulerMsg.
    unfold mbind, mret, act_bind, act_ret. simpl.
    rewrite Htask, decide_True, Hallocations by done. simpl. by rewrite Hsession. }
  split; [done|]. subst k. rewrite Hr. simpl.
  pose proof (kill_request_calls newSummary generateServiceAddress
                tensorboardServiceAddress DefaultStringValue ctx
                KillCommandRequest c eq_refl) as Hkill.
  simpl in Hkill. rewrite Hnone in Hkill.
  destruct Hkill as (Hfinal & _ & _ & _ & Hkills & _); [done|].
  split; [by rewrite Hfinal|done].
Qed.

(** X10.  An allocation that is in order, with a session that opens: the
    container is started with the task specification on record, completed by
    the agent user group, the session token and the command with its files;
    the assigned event shows the command with its allocation; and the files
    are dropped from the command once the container has been started. *)
Theorem allocation_starts_the_command
    (c : command.command) (request : sproto.AllocateRequest)
    (m : sproto.ResourcesAllocated) (a : Allocation) (token : string)
    (spec : tasks.TaskSpec) :
  command.task c = Some request →
  sproto.RA_ID m = sproto.ID request →
  sproto.Allocations m = [a] →
  db_StartTaskSession (command.db c) (sproto.ID request) = inl token →
  command.taskSpec c = Some spec →
  let r := Receive (ResourcesAllocated m) c in
  result r = Returned tt ∧
  trace r =
    [ StartTaskSession (sproto.ID request);
      Start a
        {| tasks.Base := tasks.Base spec;
           tasks.AgentUserGroup_ := command.agentUserGroup c;
           tasks.TaskToken := token;
           tasks.inner :=
             Some (tasks.StartCommand (command.config c) (command.userFiles c)
                     (command.additionalFiles c)) |};
      Tell (command.eventStream c)
        (Event (assigned (newSummary (command.set_allocation (Some a) c)) m)) ] ∧
  command.allocation (final r) = Some a ∧
  command.userFiles (final r) = [] ∧
  command.additionalFiles (final r) = [] ∧
  command.exitStatus (final r) = command.exitStatus c.
Proof.
  intros Htask Hid Hallocations Hsession Hspec r. subst r.
  unfold command.Receive, command.receiveSchedulerMsg.
  unfold mbind, mret, act_bind, act_ret. simpl.
  rewrite Htask, decide_True, Hallocations by done. simpl.
  rewrite Hsession. simpl. rewrite Hspec. by simpl.
Qed.

(** What the calls of a handler say about the message handled. *)
Lemma Receive_calls (msg : Message) (c : command.command) :
  let r := Receive msg c in
  (Stop ∈ trace r → msg = terminateForGC) ∧
  (∀ to e, Tell to (Event e) ∈ trace r → TerminateRequestEvent e = None) ∧
  (∀ d m, NotifyAfter d m ∈ trace r →
     d = command.terminatedDuration ∧ m = terminateForGC ∧
     count publishes_exited (trace r) = 1%nat) ∧
  (∀ to e status,
     Tell to (Event e) ∈ trace r → ExitedEvent e = Some status →
     command.exitStatus (final r) = Some status ∧
     Snapshot e = newSummary (final r) ∧
     (command.allocation c ≠ None →
      ∃ m, msg = TaskContainerStateChanged m ∧
           container.State_ (sproto.Container m) = container.Terminated)) ∧
  (is_report msg = false →
     command.proxyNames (final r) = command.proxyNames c ∧
     command.addresses (final r) = command.addresses c ∧
     ∀ e, e ∈ trace r → registers_proxy e = false ∧ unregisters_proxy e = false).
Proof.
  intros r. subst r.
  destruct msg; unfold command.Receive, command.receiveSchedulerMsg,
    command.terminate, command.toNotebook, command.toShell, command.toTensorboard,
    command.assert_string, command.assert_slice_of_int.
  6:{ unfold mbind, mret, act_bind, act_ret. simpl.
      destruct (command.readinessMessageSent c); simpl;
        [|rewrite readinessChecksPass_run; simpl; destruct (bool_decide _); simpl].
      all: split_and!; try (by intro_call).
      all: intros _; split_and!; try done.
      all: by intro_call. }
  5:{ handler_cases.
      all: rewrite ?count_app, ?count_fmap_none by done.
      all: split_and!; try done.
      all: intro_call; try done; try congruence.
      all: split_and!; try done; eauto.
      all: by destruct (command.task c); simpl;
             try destruct (db_DeleteTaskSessionByTaskID _ _). }
  all: handler_cases.
  all: split_and!; try done.
  all: try (intros _; split_and!; try done).
  all: intro_call; try done; try congruence.
  all: split_and!; try done; congruence.
Qed.

(** X16.  The command stops itself exactly when it handles the message of
    its timer.  The timer is set only by an exit: a handler that sets it sets
    it to [terminatedDuration], 24 hours, to deliver [terminateForGC], and
    publishes one exited event. *)
Theorem only_the_timer_stops_the_command (msg : Message) (c : command.command) :
  let r := Receive msg c in
  (Stop ∈ trace r ↔ msg = terminateForGC) ∧
  (∀ d m, NotifyAfter d m ∈ trace r →
     d = 86400000000000 ∧ m = terminateForGC ∧
     count publishes_exited (trace r) = 1%nat).
Proof.
  intros r. destruct (Receive_calls msg c) as (Hstop & _ & Htimer & _).
  split; [split; [done|]|done].
  intros ->. subst r. simpl. left.
Qed.

(** X17.  The command handles no [ReleaseResources]: the message is an
    unexpected one, refused with no call and no change.  So the branch of
    [terminate] for that message is never taken from [Receive], and no event
    the command publishes is a termination request. *)
Theorem release_is_unexpected_for_a_command
    (msg : Message) (c : command.command) (m : sproto.ReleaseResources)
    (to : option Ref) (e : event) :
  Receive (ReleaseResources m) c = Run (Raised (Err ErrUnexpectedMessage)) c [] ∧
  (Tell to (Event e) ∈ trace (Receive msg c) → TerminateRequestEvent e = None).
Proof.
  split; [done|]. apply (Receive_calls msg c).
Qed.

(** X18.  An exited event, in the trace of any handler, carries the exit
    status the command is left with and the summary of the command as it is
    left; and a command that has an allocation publishes one only on a
    container report of [Terminated]: no kill request makes it exit. *)
Theorem exited_event_shows_final_state
    (msg : Message) (c : command.command) (to : option Ref) (e : event)
    (status : string) :
  Tell to (Event e) ∈ trace (Receive msg c) →
  ExitedEvent e = Some status →
  command.exitStatus (final (Receive msg c)) = Some status ∧
  Snapshot e = newSummary (final (Receive msg c)) ∧
  (command.allocation c ≠ None →
   ∃ m, msg = TaskContainerStateChanged m ∧
        container.State_ (sproto.Container m) = container.Terminated).
Proof. apply (Receive_calls msg c). Qed.

(** X19.  Only container reports touch the proxy: a run of other messages
    registers and unregisters nothing, and leaves the names kept for the
    proxy and the addresses as they were. *)
Theorem proxy_untouched_between_reports (msgs : list Message) (c : command.command) :
  Forall (λ msg, is_report msg = false) msgs →
  let r := deliver Receive msgs c in
  command.proxyNames (final r) = command.proxyNames c ∧
  command.addresses (final r) = command.addresses c ∧
  count registers_proxy (trace r) = 0%nat ∧
  count unregisters_proxy (trace r) = 0%nat.
Proof.
  assert (Hquiet : ∀ (kind : Effect → bool) (t : list Effect),
            (∀ e, e ∈ t → kind e = false) → count kind t = 0%nat).
  { intros kind t. unfold count. induction t as [|e t IH]; intros Hkind; [done|].
    simpl. rewrite Hkind by left. apply IH. intros e' He'. apply Hkind. by right. }
  intros Hmsgs. revert c. induction Hmsgs as [|msg msgs Hmsg _ IH]; intros c r; subst r.
  - done.
  - unfold deliver in *. cbn [for_each]. rewrite bind_run.
    destruct (Receive_calls msg c) as (_ & _ & _ & _ & Hproxy).
    destruct (Hproxy Hmsg) as (Hnames & Haddresses & Hcalls).
    destruct (result (Receive msg c)) as [[]|f]; cbn [result final trace].
    + destruct (IH (final (Receive msg c))) as (IHnames & IHaddresses & IHreg & IHunreg).
      rewrite IHnames, IHaddresses, !count_app, IHreg, IHunreg.
      rewrite !Hquiet by (intros e He; by apply Hcalls). done.
    + rewrite !Hquiet by (intros e He; by apply Hcalls). done.
Qed.

End More_command_facts.

(** ** The configuration of a command *)

Section Configuration_facts.
Context `{Foreign}.

(** X11.  [setPodSpec] keeps a pod specification that the configuration
    already has; otherwise it takes the one for CPUs when the command asks
    for no slot and the one for GPUs when it asks for some.  It changes no
    other part of the configuration, and setting twice from the same
    defaults is setting once. *)
Theorem setPodSpec_fills_in_once
    (config : model.CommandConfig) (defaults : model.TaskContainerDefaultsConfig) :
  let config' := command.setPodSpec config defaults in
  model.PodSpec (model.Environment_ config') =
    match model.PodSpec (model.Environment_ config) with
    | Some pod => Some pod
    | None =>
        if decide (model.Slots (model.Resources config) = 0)
        then model.CPUPodSpec defaults
        else model.GPUPodSpec defaults
    end ∧
  model.Description config' = model.Description config ∧
  model.Resources config' = model.Resources config ∧
  model.EnvironmentRest (model.Environment_ config')
    = model.EnvironmentRest (model.Environment_ config) ∧
  command.setPodSpec config' defaults = config'.
Proof.
  intros config'. subst config'. unfold command.setPodSpec.
  destruct (model.PodSpec (model.Environment_ config)) as [pod|] eqn:Hpod; simpl.
  - rewrite Hpod. by split_and!.
  - split_and!; try done.
    destruct (decide (model.Slots (model.Resources config) = 0)); simpl.
    + by destruct (model.CPUPodSpec defaults).
    + by destruct (model.GPUPodSpec defaults).
Qed.

(** X12.  The default configuration asks for one slot, so that a default
    configuration whose environment has no pod specification gets the one
    for GPUs. *)
Theorem default_config_gets_GPU_pod
    (devices : DevicesConfig) (environment : model.Environment)
    (defaults : model.TaskContainerDefaultsConfig) :
  model.PodSpec environment = None →
  let config := command.DefaultConfig devices environment in
  model.Slots (model.Resources config) = 1 ∧
  model.PodSpec (model.Environment_ (command.setPodSpec config defaults))
    = model.GPUPodSpec defaults.
Proof.
  intros Hpod config. subst config. split; [done|].
  unfold command.setPodSpec, command.DefaultConfig. simpl. by rewrite Hpod.
Qed.


End Configuration_facts.

(** ** More on the GC task *)

Section More_GC_task_facts.
Context `{Foreign}.
Variable ctx : actor_Context.

(** X14.  The GC task keeps the log lines it is delivered, in order.  When
    its container terminates with a failure it logs the failure and then
    every line kept, in that order, and stops; when the container terminates
    without one it logs none of them, and stops. *)
Theorem gc_failure_surfaces_the_log
    (t : internal.checkpointGCTask) (lines : list ContainerLog)
    (m : sproto.TaskContainerStateChanged) (stopped : sproto.TaskContainerStopped) :
  container.State_ (sproto.Container m) = container.Terminated →
  sproto.ContainerStopped m = Some stopped →
  let logged := deliver (internal.Receive ctx) (ContainerLogged <$> lines) t in
  let r := internal.Receive ctx (TaskContainerStateChanged m) (final logged) in
  result logged = Returned tt ∧
  trace logged = [] ∧
  internal.logs (final logged) = internal.logs t ++ lines ∧
  result r = Returned tt ∧
  trace r =
    match sproto.Failure stopped with
    | Some _ =>
        Log (GCFailed (Some stopped))
        :: ((λ line, Log (ErrorText (ContainerLog_String line)))
              <$> (internal.logs t ++ lines))
        ++ [Stop]
    | None => [Log (Info "finished checkpoint garbage collection"); Stop]
    end.
Proof.
  intros Hstate Hstopped logged r.
  assert (Hlogged : ∀ t', deliver (internal.Receive ctx) (ContainerLogged <$> lines) t'
                          = Run (Returned tt) (internal.set_logs (internal.logs t' ++ lines) t') []).
  { induction lines as [|line lines' IH]; intros t'.
    - simpl. rewrite app_nil_r. by destruct t'.
    - unfold deliver in *. cbn [fmap list_fmap for_each]. rewrite bind_run.
      unfold internal.Receive at 1 2 3. simpl.
      change (list_fmap ContainerLog Message ContainerLogged lines')
        with (ContainerLogged <$> lines').
      rewrite !IH. simpl. by rewrite <-app_assoc. }
  subst logged r. rewrite Hlogged. simpl. split_and!; try done.
  - unfold internal.Receive. rewrite Hstate, Hstopped.
    unfold mbind, mret, act_bind, act_ret. simpl.
    by destruct (sproto.Failure stopped); simpl; rewrite ?for_each_emit.
  - unfold internal.Receive. rewrite Hstate, Hstopped.
    unfold mbind, mret, act_bind, act_ret. simpl.
    by destruct (sproto.Failure stopped); simpl; rewrite ?for_each_emit.
Qed.

(** X15.  The GC task opens its session under the ID of the allocation
    message and, when it stops, deletes the session of its own request.  For
    a database that answers both calls: when the two IDs agree the store
    holds no session of the task afterwards; when they differ the session
    opened under the ID of the message stays in the store. *)
Theorem gc_session_follows_message_id
    (t : internal.checkpointGCTask) (request : sproto.AllocateRequest)
    (m : sproto.ResourcesAllocated) (token : string) (sessions : gset string) :
  internal.task t = Some request →
  db_StartTaskSession (internal.db t) (sproto.RA_ID m) = inl token →
  db_DeleteTaskSessionByTaskID (internal.db t) (sproto.ID request) = None →
  let r := internal.Receive ctx (ResourcesAllocated m) t in
  let s := internal.Receive ctx PostStop (final r) in
  let store := sessions_after (internal.db t) (trace r ++ trace s) sessions in
  StartTaskSession (sproto.RA_ID m) ∈ trace r ∧
  trace s = [DeleteTaskSessionByTaskID (sproto.ID request)] ∧
  (sproto.ID request ∉ store) ∧
  (sproto.RA_ID m ≠ sproto.ID request → sproto.RA_ID m ∈ store).
Proof.
  intros Htask Hsession Hdelete r s store.
  assert (Hr : ∃ rest, trace r = StartTaskSession (sproto.RA_ID m) :: rest ∧
                       final r = t ∧
                       Forall (λ e, opens_session e = false ∧ deletes_session e = false) rest).
  { subst r. unfold internal.Receive. handler_cases; eexists; split_and!; try done.
    all: repeat constructor.
    all: apply Forall_fmap, Forall_forall; by intros. }
  destruct Hr as (rest & Hr & Hfinal & Hrest).
  assert (Hs : trace s = [DeleteTaskSessionByTaskID (sproto.ID request)]).
  { subst s. rewrite Hfinal. unfold internal.Receive.
    unfold mbind, mret, act_bind, act_ret. simpl. rewrite Htask. simpl.
    by rewrite Hdelete. }
  assert (Hquiet : ∀ store', foldl (session_call (internal.db t)) store' rest = store').
  { clear Hr. induction Hrest as [|e rest' [Hopen Hdel] _ IH]; intros store'; [done|].
    simpl. rewrite IH. by destruct e. }
  assert (Hstore : store = ({[ sproto.RA_ID m ]} ∪ sessions) ∖ {[ sproto.ID request ]}).
  { subst store. rewrite Hr, Hs. unfold sessions_after.
    rewrite foldl_app. cbn [foldl]. rewrite Hquiet. simpl.
    by rewrite Hsession, Hdelete. }
  split_and!; [rewrite Hr; left|done|set_solver|set_solver].
Qed.

End More_GC_task_facts.

(** ** A whole life of a command *)

Section Lifecycle_facts.
Context `{Foreign}.
Variable newSummary : command.command → summary.
Variable generateServiceAddress : string → string + error.
Variable tensorboardServiceAddress : sproto.TaskID → string.
Variable DefaultStringValue : string.
Variable ctx : actor_Context.

#[local] Abbreviation Receive :=
  (command.Receive newSummary generateServiceAddress tensorboardServiceAddress
     DefaultStringValue ctx).

Lemma count_fmap_all {A : Type} (kind : Effect → bool) (f : A → Effect) (l : list A) :
  (∀ x, kind (f x) = true) → count kind (f <$> l) = length l.
Proof.
  intros Hkind. unfold count. induction l as [|x l IH]; [done|].
  cbn. rewrite Hkind. simpl. by f_equal.
Qed.

Lemma count_cons (kind : Effect → bool) (e : Effect) (t : list Effect) :
  count kind (e :: t) = if kind e then S (count kind t) else count kind t.
Proof. unfold count. simpl. by destruct (kind e). Qed.

(** After a trace that ends with the deletion of a session that the
    database carries out, the store does not hold the session. *)
Lemma sessions_after_last_delete (db : PgDB) (t : list Effect) (taskID : string)
    (sessions : gset string) :
  last t = Some (DeleteTaskSessionByTaskID taskID) →
  db_DeleteTaskSessionByTaskID db taskID = None →
  taskID ∉ sessions_after db t sessions.
Proof.
  intros Hlast Hdelete. apply last_Some in Hlast as [t' ->].
  unfold sessions_after. rewrite foldl_app. simpl. rewrite Hdelete. set_solver.
Qed.

(** X20.  From its start to the end of its container: a command that is
    started, allocated one container for its request, told that the
    container runs at some addresses and then that it terminated without a
    failure, with a resource manager and a database that answer without an
    error.  The four handlers return; the command is left [Terminated] with
    the status that it exited successfully; one container was started; as
    many routes were unregistered as were registered, one per address, and
    no name is kept for the proxy; one exited event was published and the
    resources released once; and the store holds no session of the task. *)
Theorem life_of_a_command
    (c : command.command) (a : Allocation) (token : string) (spec : tasks.TaskSpec)
    (k1 k2 : container.Container) (started : sproto.TaskContainerStarted)
    (sessions : gset string) :
  (∀ m, Ask_Error ctx (GetRM ctx) m = None) →
  db_StartTaskSession (command.db c) (command.taskID c) = inl token →
  db_DeleteTaskSessionByTaskID (command.db c) (command.taskID c) = None →
  command.taskSpec c = Some spec →
  container.State_ k1 = container.Running →
  container.State_ k2 = container.Terminated →
  let r :=
    deliver Receive
      [ PreStart;
        ResourcesAllocated
          {| sproto.RA_ID := command.taskID c; sproto.Allocations := [a] |};
        TaskContainerStateChanged
          {| sproto.Container := k1; sproto.ContainerStarted := Some started;
             sproto.ContainerStopped := None |};
        TaskContainerStateChanged
          {| sproto.Container := k2; sproto.ContainerStarted := None;
             sproto.ContainerStopped := Some {| sproto.Failure := None |} |} ]
      c in
  result r = Returned tt ∧
  command.State_of (final r) = Terminated ∧
  command.exitStatus (final r) = Some "command exited successfully" ∧
  command.proxyNames (final r) = [] ∧
  count starts_container (trace r) = 1%nat ∧
  count registers_proxy (trace r) = length (sproto.Addresses started) ∧
  count unregisters_proxy (trace r) = length (sproto.Addresses started) ∧
  count publishes_exited (trace r) = 1%nat ∧
  count releases_resources (trace r) = 1%nat ∧
  (command.taskID c ∉ sessions_after (command.db c) (trace r) sessions).
Proof.
  intros Hrm Hsession Hdelete Hspec Hrunning Hterminated r. subst r.
  unfold deliver, for_each, command.Receive, command.receiveSchedulerMsg,
    command.State_of.
  unfold mbind, mret, act_bind, act_ret. simpl.
  rewrite Hrm. simpl. rewrite decide_True by done. simpl.
  rewrite Hsession. simpl. rewrite Hspec. simpl.
  rewrite Hrunning. simpl. rewrite for_each_emit. simpl.
  rewrite Hterminated. simpl. rewrite for_each_emit. simpl.
  rewrite exit_run. simpl. rewrite Hdelete, Hterminated. simpl.
  split_and!; try done.
  1-5: repeat first
         [ rewrite count_cons | rewrite count_app
         | rewrite count_fmap_all by done | rewrite count_fmap_none by done ];
       simpl; rewrite ?length_fmap; unfold count; simpl; lia.
  apply sessions_after_last_delete; [|done].
  repeat first [rewrite last_cons | rewrite last_app]; by simpl.
Qed.

End Lifecycle_facts.

Section GC_failure_facts.
Context `{Foreign}.
Variable ctx : actor_Context.

(** X21.  The two ways in which the GC task fails on an allocation.  When
    the session cannot be opened the handler fails with the error of the
    database, wrapped, after that one call.  When the session opens and the
    checkpoints cannot be read, with the retention counts of the experiment's
    checkpoint storage, the handler fails with the error as it is, after
    these two calls.  In both cases no container is started and no field
    changes. *)
Theorem gc_failures_start_nothing
    (t : internal.checkpointGCTask) (m : sproto.ResourcesAllocated) :
  let r := internal.Receive ctx (ResourcesAllocated m) t in
  (∀ err,
     db_StartTaskSession (internal.db t) (sproto.RA_ID m) = inr err →
     r = Run (Raised (Err (errors_Wrap err
                             "cannot start a new task session for a GC task")))
           t [StartTaskSession (sproto.RA_ID m)]) ∧
  (∀ token e err,
     db_StartTaskSession (internal.db t) (sproto.RA_ID m) = inl token →
     internal.experiment t = Some e →
     let storage := model.CheckpointStorage (model.Config e) in
     db_ExperimentCheckpointsToGCRaw (internal.db t) (model.ID e)
       (Some (model.SaveExperimentBest storage)) (Some (model.SaveTrialBest storage))
       (Some (model.SaveTrialLatest storage)) true = inr err →
     r = Run (Raised (Err err)) t
           [ StartTaskSession (sproto.RA_ID m);
             ExperimentCheckpointsToGCRaw (model.ID e)
               (Some (model.SaveExperimentBest storage))
               (Some (model.SaveTrialBest storage))
               (Some (model.SaveTrialLatest storage)) true ]).
Proof.
  intros r. subst r. unfold internal.Receive.
  unfold mbind, mret, act_bind, act_ret. simpl. split.
  - intros err ->. done.
  - intros token e err -> -> Hcheckpoints. simpl.
    by rewrite Hcheckpoints.
Qed.

End GC_failure_facts.

(** ** Stopping, answering and logging *)

Section Answer_facts.
Context `{Foreign}.
Variable newSummary : command.command → summary.
Variable generateServiceAddress : string → string + error.
Variable tensorboardServiceAddress : sproto.TaskID → string.
Variable DefaultStringValue : string.
Variable ctx : actor_Context.

#[local] Abbreviation Receive :=
  (command.Receive newSummary generateServiceAddress tensorboardServiceAddress
     DefaultStringValue ctx).
#[local] Abbreviation exit := (command.exit newSummary ctx).

(** X22.  [PostStop] terminates the command like a kill request, with no
    answer to a sender: with no allocation it runs the exit, so that a
    command that stops also sets its timer; with an allocation it forwards
    one kill to it and changes no field. *)
Theorem PostStop_terminates_without_answer (c : command.command) :
  let r := Receive PostStop c in
  r = match command.allocation c with
      | None => exit "task is aborted without being scheduled" c
      | Some a => Run (Returned tt) c [Log (Info "task forcible terminating"); Kill a]
      end ∧
  result r = Returned tt ∧
  count responds (trace r) = 0%nat.
Proof.
  intros r. subst r. unfold command.Receive, command.terminate.
  unfold mbind, mret, act_bind, act_ret. simpl.
  destruct (command.allocation c) as [a|] eqn:Hallocation; simpl.
  - done.
  - rewrite exit_run. simpl. split_and!; try done.
    by destruct (command.task c) as [t|];
      [destruct (db_DeleteTaskSessionByTaskID (command.db c) (sproto.ID t))|].
Qed.

(** X23.  The answer to a kill request for a command is made after
    [terminate] has run: the handler makes the calls of [PostStop] and then
    answers once, with the command as [terminate] left it.  So the answer to
    a kill before the allocation, with no container on record, already shows
    [Terminated] and the exit status of the abort; the answer to a kill after
    the allocation shows the state and the exit status as they were. *)
Theorem kill_answer_shows_command_after_terminate (c : command.command) :
  let p := Receive PostStop c in
  let r := Receive KillCommandRequest c in
  let shown := command.toCommand DefaultStringValue ctx (final p) in
  r = Run (Returned tt) (final p) (trace p ++ [Respond (KillCommandResponse shown)]) ∧
  match command.allocation c with
  | None =>
      commandv1.ExitStatus shown = "task is aborted without being scheduled" ∧
      (command.container c = None → commandv1.State_ shown = Terminated)
  | Some _ =>
      commandv1.State_ shown = command.State_of c ∧
      commandv1.ExitStatus shown = command.shown_exitStatus DefaultStringValue c
  end.
Proof.
  intros p r shown. subst p r shown.
  unfold command.Receive, command.terminate.
  unfold mbind, mret, act_bind, act_ret. simpl.
  destruct (command.allocation c) as [a|] eqn:Hallocation; simpl.
  - done.
  - rewrite exit_run. simpl. split.
    + by destruct (command.task c) as [t|];
        [destruct (db_DeleteTaskSessionByTaskID (command.db c) (sproto.ID t))|].
    + split.
      * by destruct (command.task c) as [t|];
          [destruct (db_DeleteTaskSessionByTaskID (command.db c) (sproto.ID t))|].
      * intros Hcontainer. unfold command.State_of.
        by destruct (command.task c) as [t|];
          [destruct (db_DeleteTaskSessionByTaskID (command.db c) (sproto.ID t))|];
          simpl; rewrite Hcontainer.
Qed.


(** X25.  A report that lacks its record panics part way, on the nil
    pointer.  A report of [Running] with no start record has by then replaced
    the container and made no call.  A report of [Terminated] with no stop
    record has by then unregistered every name kept and emptied the names: it
    publishes no exited event, sets no exit status and releases nothing. *)
Theorem report_without_record_panics
    (c : command.command) (m : sproto.TaskContainerStateChanged) :
  let r := Receive (TaskContainerStateChanged m) c in
  (container.State_ (sproto.Container m) = container.Running →
   sproto.ContainerStarted m = None →
   r = Run (Raised (Panic "nil pointer dereference"))
         (command.set_container (Some (sproto.Container m)) c) []) ∧
  (container.State_ (sproto.Container m) = container.Terminated →
   sproto.ContainerStopped m = None →
   r = Run (Raised (Panic "nil pointer dereference"))
         (command.set_proxyNames []
            (command.set_container (Some (sproto.Container m)) c))
         ((λ name, Tell (command.proxy c) (Unregister {| proxy.ServiceID := name |}))
            <$> command.proxyNames c) ∧
   command.exitStatus (final r) = command.exitStatus c ∧
   count publishes_exited (trace r) = 0%nat ∧
   count releases_resources (trace r) = 0%nat).
Proof.
  intros r. subst r. unfold command.Receive.
  unfold mbind, mret, act_bind, act_ret. simpl. split.
  - intros -> ->. done.
  - intros -> ->. simpl. rewrite for_each_emit. simpl.
    rewrite app_nil_r. split_and!; try done.
    + by apply count_fmap_none.
    + by apply count_fmap_none.
Qed.

Lemma logged_lines_app (t1 t2 : list Effect) :
  logged_lines (t1 ++ t2) = logged_lines t1 ++ logged_lines t2.
Proof. unfold logged_lines. apply omap_app. Qed.

Lemma logged_lines_none {A : Type} (f : A → Effect) (l : list A) :
  (∀ x, logged_line (f x) = None) → logged_lines (f <$> l) = [].
Proof.
  intros Hnone. unfold logged_lines. induction l as [|x l IH]; [done|].
  cbn. by rewrite Hnone.
Qed.

(** One line: the log event is the last call of the handler, with the
    summary of the command as the handler leaves it, and the only one. *)
Lemma log_line_published (line : ContainerLog) (c : command.command) :
  let r := Receive (ContainerLogged line) c in
  result r = Returned tt ∧
  last (trace r)
    = Some (Tell (command.eventStream c)
              (Event (logged (newSummary (final r)) (ContainerLog_String line)))) ∧
  logged_lines (trace r) = [ContainerLog_String line].
Proof.
  intros r. subst r. unfold command.Receive.
  unfold mbind, mret, act_bind, act_ret. simpl.
  destruct (command.readinessMessageSent c) eqn:Hsent; simpl; [done|].
  rewrite readinessChecksPass_run. simpl.
  destruct (bool_decide _); simpl.
  - rewrite last_app. simpl. split_and!; try done.
    rewrite !logged_lines_app, logged_lines_none by done. done.
  - rewrite last_app. simpl. split_and!; try done.
    rewrite !logged_lines_app, logged_lines_none by done. done.
Qed.

(** X26.  Every log line delivered to a command is published as one log
    event, in the order of delivery and whatever the readiness checks do with
    it: the lines that a run of log lines publishes are the texts of the
    lines delivered.  The log event is the last call of its handler and
    carries the summary of the command as the handler leaves it, so after
    the readiness of that line has been recorded. *)
Theorem log_lines_published_in_order
    (c : command.command) (lines : list ContainerLog) (line : ContainerLog) :
  let r := deliver Receive (ContainerLogged <$> lines) c in
  let step := Receive (ContainerLogged line) c in
  result r = Returned tt ∧
  logged_lines (trace r) = ContainerLog_String <$> lines ∧
  last (trace step)
    = Some (Tell (command.eventStream c)
              (Event (logged (newSummary (final step)) (ContainerLog_String line)))).
Proof.
  intros r step. subst r step. split_and!.
  - revert c. induction lines as [|l lines IH]; intros c; [done|].
    unfold deliver in *. cbn [fmap list_fmap for_each].
    rewrite bind_run.
    destruct (log_line_published l c) as (Hresult & _ & _).
    destruct (Receive (ContainerLogged l) c) as [res c' t]. simpl in *.
    subst res. cbv beta iota. cbn [result final trace]. apply IH.
  - revert c. induction lines as [|l lines IH]; intros c; [done|].
    unfold deliver in *. cbn [fmap list_fmap for_each].
    rewrite bind_run.
    destruct (log_line_published l c) as (Hresult & _ & Hlines).
    destruct (Receive (ContainerLogged l) c) as [res c' t]. simpl in *.
    subst res. cbv beta iota. cbn [result final trace].
    rewrite logged_lines_app, Hlines, IH. done.
  - by destruct (log_line_published line c) as (_ & Hlast & _).
Qed.

End Answer_facts.

(** ** The requests of the GC task *)

Section GC_request_facts.
Context `{Foreign}.
Variable ctx : actor_Context.

(** X27.  [PreStart] of the GC task records a request under a new task ID,
    for no slot, not preemptible, on a single agent and named after the
    experiment, and tells the resource manager of it; it waits for no answer.
    With no experiment it panics before any call.  [PostStop] then deletes
    the session of that request, and only logs when the database refuses. *)
Theorem gc_PreStart_requests_allocation (t : internal.checkpointGCTask) :
  let r := internal.Receive ctx PreStart t in
  match internal.experiment t with
  | None => r = Run (Raised (Panic "nil pointer dereference")) t []
  | Some e =>
      ∃ request,
        r = Run (Returned tt) (internal.set_task (Some request) t)
              [Tell (internal.rm t) (AllocateRequest request)] ∧
        sproto.ID request = NewTaskID ctx ∧
        sproto.Name request = "Checkpoint GC (Experiment " +:+ pretty (model.ID e) +:+ ")" ∧
        sproto.SlotsNeeded request = 0 ∧
        sproto.NonPreemptible request = true ∧
        sproto.SingleAgent (sproto.FittingRequirements_ request) = true ∧
        sproto.TaskActor request = Some (Self ctx) ∧
        let s := internal.Receive ctx PostStop (final r) in
        result s = Returned tt ∧
        final s = final r ∧
        trace s =
          DeleteTaskSessionByTaskID (NewTaskID ctx) ::
          match db_DeleteTaskSessionByTaskID (internal.db t) (NewTaskID ctx) with
          | Some err => [Log (ErrorWith err "cannot delete task session for a GC task")]
          | None => []
          end
  end.
Proof.
  intros r. subst r. unfold internal.Receive.
  unfold mbind, mret, act_bind, act_ret. simpl.
  destruct (internal.experiment t) as [e|] eqn:He; simpl; [|done].
  eexists. split; [reflexivity|]. simpl. split_and!; try done.
  - by destruct (db_DeleteTaskSessionByTaskID (internal.db t) (NewTaskID ctx)).
  - by destruct (db_DeleteTaskSessionByTaskID (internal.db t) (NewTaskID ctx)).
  - by destruct (db_DeleteTaskSessionByTaskID (internal.db t) (NewTaskID ctx)).
Qed.

(** X28.  An allocation of the GC task, with a session that opens, the
    checkpoints read and a task specification: the handler opens the session,
    reads the checkpoints to delete, logs that the collection starts and then
    starts every entry, in order, with the one specification: the one on
    record, completed by the agent user group, the session token and the
    collection of these checkpoints for the experiment.  No field changes. *)
Theorem gc_allocation_starts_collection
    (t : internal.checkpointGCTask) (m : sproto.ResourcesAllocated)
    (token : string) (e : model.Experiment) (checkpoints : Checkpoints)
    (spec : tasks.TaskSpec) :
  let storage := model.CheckpointStorage (model.Config e) in
  let read :=
    ExperimentCheckpointsToGCRaw (model.ID e)
      (Some (model.SaveExperimentBest storage)) (Some (model.SaveTrialBest storage))
      (Some (model.SaveTrialLatest storage)) true in
  db_StartTaskSession (internal.db t) (sproto.RA_ID m) = inl token →
  internal.experiment t = Some e →
  db_ExperimentCheckpointsToGCRaw (internal.db t) (model.ID e)
    (Some (model.SaveExperimentBest storage)) (Some (model.SaveTrialBest storage))
    (Some (model.SaveTrialLatest storage)) true = inl checkpoints →
  internal.taskSpec t = Some spec →
  internal.Receive ctx (ResourcesAllocated m) t
  = Run (Returned tt) t
      ([ StartTaskSession (sproto.RA_ID m); read;
         Log (Info "starting checkpoint garbage collection") ]
       ++ ((λ a,
              Start a
                {| tasks.Base := tasks.Base spec;
                   tasks.AgentUserGroup_ := internal.agentUserGroup t;
                   tasks.TaskToken := token;
                   tasks.inner :=
                     Some (tasks.GCCheckpoints (model.ID e) (model.Config e)
                             checkpoints (internal.gcTensorboards t)) |})
             <$> sproto.Allocations m)).
Proof.
  intros storage read Hsession He Hcheckpoints Hspec. subst storage read.
  unfold internal.Receive. unfold mbind, mret, act_bind, act_ret. simpl.
  rewrite Hsession, He. simpl. rewrite Hcheckpoints. simpl. rewrite Hspec.
  rewrite for_each_emit. done.
Qed.

End GC_request_facts.

(** * The statements on the instance *)

Section On_the_instance.
#[local] Existing Instance demo.foreign.

#[local] Abbreviation Receive := (demo.Receive demo.ctx).

(** C1, counterexample: the GC task whose outstanding request is G1 is
    delivered an allocation for T2; it opens a session under T2 and starts
    the container. *)
Lemma gc_task_accepts_any_request_id :
  let g := internal.Receive demo.ctx (ResourcesAllocated demo.stale) demo.gc_started in
  sproto.ID <$> internal.task demo.gc_started = Some "G1" ∧
  sproto.RA_ID demo.stale = "T2" ∧
  result g = Returned tt ∧
  StartTaskSession "T2" ∈ trace g ∧
  count opens_session (trace g) = 1%nat ∧
  count starts_container (trace g) = 1%nat.
Proof. vm_compute. split_and!; try reflexivity. left. Qed.

(** C1, on the instance: the command waiting for T1 drops the allocation
    for T2. *)
Lemma stale_allocation_dropped_witness :
  (∀ request, command.task demo.started = Some request →
              sproto.RA_ID demo.stale ≠ sproto.ID request) ∧
  Receive (ResourcesAllocated demo.stale) demo.started
  = Run (Returned tt) demo.started
      [Log (Info "ignoring resource allocation since the command has exited.")].
Proof.
  assert (Hstale : ∀ request, command.task demo.started = Some request →
                     sproto.RA_ID demo.stale ≠ sproto.ID request).
  { intros request Htask. vm_compute in Htask. by simplify_eq. }
  split; [exact Hstale|].
  apply (stale_allocation_dropped_by_command demo.newSummary
           demo.generateServiceAddress demo.tensorboardServiceAddress
           demo.DefaultStringValue demo.ctx demo.started demo.stale
           demo.gc_started Hstale).
Defined.

(** C2, on the instance: the command is killed before any allocation, so it
    has exited; the allocation for its request that arrives afterwards is not
    ignored: a session is opened, the container started and the assigned
    event published. *)
Lemma allocation_after_exit_is_handled :
  let aborted := final (demo.run_of [PreStart; KillCommandRequest] demo.created) in
  let r := Receive (demo.allocated 3) aborted in
  command.exitStatus aborted = Some "task is aborted without being scheduled" ∧
  command.State_of aborted = Terminated ∧
  result r = Returned tt ∧
  count opens_session (trace r) = 1%nat ∧
  count starts_container (trace r) = 1%nat ∧
  count publishes_event (trace r) = 1%nat ∧
  command.allocation (final r) = Some 3%nat.
Proof. vm_compute. by split_and!. Qed.

(** C3, counterexample: two kill requests to a command that waits for its
    allocation publish two exited events and release the resources twice. *)
Lemma two_kills_exit_twice :
  let r := demo.run_of [KillCommandRequest; KillCommandRequest] demo.started in
  result r = Returned tt ∧
  count publishes_exited (trace r) = 2%nat ∧
  count releases_resources (trace r) = 2%nat.
Proof. vm_compute. by split_and!. Qed.

(** C3, on the instance. *)
Lemma two_kills_witness :
  is_kill KillCommandRequest = true ∧
  let r1 := Receive KillCommandRequest demo.started in
  let r2 := Receive KillShellRequest (final r1) in
  count publishes_exited (trace r1 ++ trace r2) = 2%nat ∧
  count releases_resources (trace r1 ++ trace r2) = 2%nat ∧
  count kills_container (trace r1 ++ trace r2) = 0%nat.
Proof.
  split; [reflexivity|].
  apply (two_kills_in_succession demo.newSummary demo.generateServiceAddress
           demo.tensorboardServiceAddress demo.DefaultStringValue demo.ctx
           KillCommandRequest KillShellRequest demo.started);
    [reflexivity|reflexivity|].
  intros _. eexists. reflexivity.
Defined.



(** C5, on the instance: the route of T1 to 10.0.0.5:9000, registered on
    [Running], is unregistered first when the container terminates. *)
Lemma proxies_unregistered_witness :
  let c0 := final (demo.run_of [PreStart; demo.allocated 3] demo.created) in
  let r1 := Receive demo.running c0 in
  let r2 := Receive (demo.terminated None) (final r1) in
  container.State_ (sproto.Container demo.running_report) = container.Running ∧
  container.State_ (sproto.Container (demo.terminated_report None)) = container.Terminated ∧
  List.filter registers_proxy (trace r1)
    = [Ask (Some "/proxy")
         (Register {| proxy.R_ServiceID := "T1";
                      proxy.R_URL := {| proxy.Scheme := "http";
                                        proxy.Host := "10.0.0.5:9000" |};
                      proxy.ProxyTCP := false |})] ∧
  (∃ rest,
     trace r2
       = Tell (Some "/proxy") (Unregister {| proxy.ServiceID := "T1" |})
         :: Tell (Some "/commands/T1/events")
              (Event (exited (demo.newSummary (final r2))
                        (Some "command exited successfully")))
         :: Tell (Some "/resourceManagers")
              (ResourcesReleased {| sproto.RR_TaskActor := "/commands/T1" |})
         :: rest) ∧
  command.proxyNames (final r2) = [].
Proof.
  intros c0 r1 r2.
  destruct (proxies_unregistered_before_exit demo.newSummary demo.generateServiceAddress
              demo.tensorboardServiceAddress demo.DefaultStringValue demo.ctx
              c0 (final r1) demo.running_report (demo.terminated_report None)
              {| sproto.Addresses :=
                   [ {| container.HostIP := "10.0.0.5"; container.HostPort := 9000 |} ] |}
              {| sproto.Failure := None |})
    as ((Hregistered & _) & (status & rest & Htrace & _ & _ & Hstatus) & Hnames);
    [reflexivity..|].
  split; [reflexivity|]. split; [reflexivity|].
  split; [exact Hregistered|]. split; [|exact Hnames].
  exists rest. vm_compute in Hstatus. injection Hstatus as <-. exact Htrace.
Defined.

(** C6, on the instance: with the checks A, for a line that contains
    ready-A, and B, for a line that contains ready-B, the lines noise,
    ready-B, noise, ready-A publish the ready event once, and it is the
    fourth line that does. *)
Lemma ready_after_fourth_line :
  command.readinessMessageSent demo.started = false ∧
  let r := deliver Receive (ContainerLogged <$> demo.startup_log) demo.started in
  count publishes_ready (trace r) = 1%nat ∧
  (∀ i line, demo.startup_log !! i = Some line →
     count publishes_ready
       (trace (Receive (ContainerLogged line)
                 (final (deliver Receive (ContainerLogged <$> take i demo.startup_log)
                           demo.started)))) = 1%nat
     ↔ i = 3%nat).
Proof.
  split; [reflexivity|].
  destruct (ready_announced_exactly_once demo.newSummary demo.generateServiceAddress
              demo.tensorboardServiceAddress demo.DefaultStringValue demo.ctx
              demo.started demo.startup_log [])
    as (_ & _ & Hline & _ & Hrun & _); [reflexivity|].
  split.
  - apply Hrun. split; [done|]. by vm_compute.
  - intros i line Hi. destruct (Hline i line Hi) as (_ & _ & ->).
    destruct i as [|[|[|[|i]]]]; [..|done].
    + split; [|done]. intros [Hnone _]. by vm_compute in Hnone.
    + split; [|done]. intros [Hnone _]. by vm_compute in Hnone.
    + split; [|done]. intros [Hnone _]. by vm_compute in Hnone.
    + split; [done|]. intros _. split; [by vm_compute|].
      intros [|[|[|j]]] Hj Hnone; [by vm_compute in Hnone..|lia].
Defined.



(** C8, on the instance: one entry, one start, for the command; two entries,
    two starts, for the GC task; and a panic for the command given two. *)
Lemma one_start_witness :
  command.task demo.started = Some demo.request ∧
  sproto.RA_ID (demo.grant [1; 2]%nat) = sproto.ID demo.request ∧
  Receive (ResourcesAllocated (demo.grant [1; 2]%nat)) demo.started
  = Run (Raised (Panic "Command should only receive an allocation of one container"))
      demo.started [] ∧
  count starts_container
    (trace (internal.Receive demo.ctx (ResourcesAllocated (demo.grant [1; 2]%nat))
              demo.gc_started)) = 2%nat ∧
  count starts_container (trace (Receive (demo.allocated 3) demo.started)) = 1%nat.
Proof.
  split; [reflexivity|]. split; [reflexivity|].
  destruct (one_start_per_allocation_entry demo.newSummary demo.generateServiceAddress
              demo.tensorboardServiceAddress demo.DefaultStringValue demo.ctx
              demo.started demo.request (demo.grant [1; 2]%nat) demo.gc_started)
    as (Hpanic & _ & Hgc); [reflexivity..|].
  destruct (one_start_per_allocation_entry demo.newSummary demo.generateServiceAddress
              demo.tensorboardServiceAddress demo.DefaultStringValue demo.ctx
              demo.started demo.request (demo.grant [3]%nat) demo.gc_started)
    as (_ & Hone & _); [reflexivity..|].
  split_and!.
  - by apply Hpanic.
  - by destruct (Hgc "token-T1" demo.experiment ["c1"; "c2"] demo.spec)
      as (_ & Hcount & _).
  - by destruct (Hone eq_refl "token-T1" demo.spec) as (_ & Hcount & _).
Defined.

(** C10, on the instance: a report of [Pulling]. *)
Lemma early_report_witness :
  container.State_ (sproto.Container (demo.reports container.Pulling)) ≠ container.Running ∧
  container.State_ (sproto.Container (demo.reports container.Pulling)) ≠ container.Terminated ∧
  let r := Receive (TaskContainerStateChanged (demo.reports container.Pulling)) demo.started in
  trace r = [] ∧ command.State_of (final r) = Pulling.
Proof.
  split; [done|]. split; [done|]. intros r.
  destruct (early_report_only_replaces_container demo.newSummary
              demo.generateServiceAddress demo.tensorboardServiceAddress
              demo.DefaultStringValue demo.ctx demo.started
              (demo.reports container.Pulling))
    as (Hrun & _ & _ & _ & _ & _ & _ & _ & _ & Hstate); [done..|].
  split; [exact (f_equal trace Hrun)|exact Hstate].
Defined.

End On_the_instance.

(** * More statements on the instance *)

Section More_on_the_instance.
#[local] Existing Instance demo.foreign.

#[local] Abbreviation Receive := (demo.Receive demo.ctx).

(** X2, on the instance: the container of T1 terminates, out of memory. *)
Lemma terminated_report_witness :
  let c := final (demo.run_of [PreStart; demo.allocated 3; demo.running] demo.created) in
  let r := Receive (demo.terminated (Some "out of memory")) c in
  command.exitStatus (final r) = Some "out of memory" ∧
  count publishes_exited (trace r) = 1%nat ∧
  count releases_resources (trace r) = 1%nat ∧
  DeleteTaskSessionByTaskID "T1" ∈ trace r.
Proof.
  intros c r.
  destruct (terminated_report_exits demo.newSummary demo.generateServiceAddress
              demo.tensorboardServiceAddress demo.DefaultStringValue demo.ctx
              c (demo.terminated_report (Some "out of memory"))
              (@sproto.Build_TaskContainerStopped demo.foreign (Some "out of memory")))
    as (_ & Hstatus & _ & _ & Hexited & Hreleased & _ & Hdelete);
    [reflexivity|reflexivity|].
  split_and!; [exact Hstatus|exact Hexited|exact Hreleased|].
  apply (Hdelete demo.request). reflexivity.
Defined.

(** X5, on the instance: the request for the shell of T1. *)
Lemma reads_change_nothing_witness :
  is_read GetShellRequest = true ∧
  final (Receive GetShellRequest demo.started) = demo.started.
Proof.
  split; [reflexivity|].
  destruct (reads_change_nothing demo.newSummary demo.generateServiceAddress
              demo.tensorboardServiceAddress demo.DefaultStringValue demo.ctx
              GetShellRequest demo.started)
    as (Hfinal & _); [reflexivity|].
  exact Hfinal.
Defined.

(** X6, on the instance: no address can be generated for T1. *)
Lemma notebook_kill_witness :
  demo.no_address "T1" = inr (errors_New "no address") ∧
  command.Receive demo.newSummary demo.no_address demo.tensorboardServiceAddress
    demo.DefaultStringValue demo.ctx KillNotebookRequest demo.started
  = Run (Returned tt) demo.started
      [Log (Error_ (errors_Wrap (errors_New "no address")
                      "generating service address for T1"))].
Proof.
  split; [reflexivity|].
  apply (notebook_kill_needs_address demo.newSummary demo.no_address
           demo.tensorboardServiceAddress demo.DefaultStringValue demo.ctx
           demo.started (errors_New "no address")).
  reflexivity.
Defined.

(** X7, on the instance: the metadata of T1 holds both keys. *)
Lemma shell_keys_witness :
  result (Receive Shell demo.created) = Returned tt ∧
  count responds (trace (Receive Shell demo.created)) = 1%nat.
Proof.
  destruct (shell_needs_its_keys demo.newSummary demo.generateServiceAddress
              demo.tensorboardServiceAddress demo.DefaultStringValue demo.ctx
              demo.created)
    as [Hkeys _].
  destruct Hkeys as (Hresult & Hcount & _).
  - exists "private", "public". split; reflexivity.
  - split; [exact Hresult|exact Hcount].
Defined.


(** X9, on the instance: the database is down when T1 is allocated. *)
Lemma session_failure_witness :
  command.task demo.offline = Some demo.request ∧
  let r := Receive (demo.allocated 3) demo.offline in
  r = Run (Raised (Err (errors_Wrap (errors_New "connection refused")
                          "cannot start a new task session")))
        demo.offline [StartTaskSession "T1"] ∧
  count kills_container (trace (Receive KillCommandRequest (final r))) = 0%nat.
Proof.
  split; [reflexivity|].
  destruct (session_failure_starts_nothing demo.newSummary demo.generateServiceAddress
              demo.tensorboardServiceAddress demo.DefaultStringValue demo.ctx
              demo.offline demo.request (demo.grant [3%nat]) 3%nat
              (errors_New "connection refused"))
    as (Hrun & _ & Hkills); [reflexivity..|].
  split; [exact Hrun|exact Hkills].
Defined.

(** X10, on the instance: T1 is allocated the entry 3. *)
Lemma allocation_starts_witness :
  command.task demo.started = Some demo.request ∧
  let r := Receive (demo.allocated 3) demo.started in
  result r = Returned tt ∧
  command.allocation (final r) = Some 3%nat ∧
  command.userFiles (final r) = [] ∧
  command.additionalFiles (final r) = [].
Proof.
  split; [reflexivity|].
  destruct (allocation_starts_the_command demo.newSummary demo.generateServiceAddress
              demo.tensorboardServiceAddress demo.DefaultStringValue demo.ctx
              demo.started demo.request (demo.grant [3%nat]) 3%nat "token-T1" demo.spec)
    as (Hresult & _ & Hallocation & Huser & Hadditional & _); [reflexivity..|].
  split_and!; [exact Hresult|exact Hallocation|exact Huser|exact Hadditional].
Defined.

(** X18, on the instance: the exited event of a command killed before its
    allocation. *)
Lemma exited_event_witness :
  let r := Receive KillCommandRequest demo.started in
  let e := exited (demo.newSummary (final r))
             (Some "task is aborted without being scheduled") in
  Tell (Some "/commands/T1/events") (Event e) ∈ trace r ∧
  command.exitStatus (final r) = Some "task is aborted without being scheduled" ∧
  Snapshot e = demo.newSummary (final r).
Proof.
  intros r e.
  assert (Hpublished : Tell (Some "/commands/T1/events") (Event e) ∈ trace r).
  { vm_compute. left. }
  split; [exact Hpublished|].
  destruct (exited_event_shows_final_state demo.newSummary demo.generateServiceAddress
              demo.tensorboardServiceAddress demo.DefaultStringValue demo.ctx
              KillCommandRequest demo.started (Some "/commands/T1/events") e
              "task is aborted without being scheduled" Hpublished)
    as (Hstatus & Hsummary & _); [reflexivity|].
  split; [exact Hstatus|exact Hsummary].
Defined.

(** X19, on the instance: the start, the allocation and a kill request. *)
Lemma proxy_untouched_witness :
  let r := demo.run_of [PreStart; demo.allocated 3; KillCommandRequest] demo.created in
  command.proxyNames (final r) = [] ∧
  count registers_proxy (trace r) = 0%nat ∧
  count unregisters_proxy (trace r) = 0%nat.
Proof.
  intros r.
  destruct (proxy_untouched_between_reports demo.newSummary demo.generateServiceAddress
              demo.tensorboardServiceAddress demo.DefaultStringValue demo.ctx
              [PreStart; demo.allocated 3; KillCommandRequest] demo.created)
    as (Hnames & _ & Hregisters & Hunregisters).
  - repeat constructor.
  - split_and!; [exact Hnames|exact Hregisters|exact Hunregisters].
Defined.

(** X12, on the instance: the default configuration for the devices and
    the environment of the configuration of T1. *)
Lemma default_config_witness :
  let devices := model.Devices (model.Resources demo.config) in
  let environment := model.Environment_ demo.config in
  model.PodSpec environment = None ∧
  model.PodSpec
    (model.Environment_
       (command.setPodSpec (command.DefaultConfig devices environment) demo.defaults))
  = Some "gpu-pod".
Proof.
  intros devices environment.
  split; [reflexivity|].
  destruct (default_config_gets_GPU_pod devices environment demo.defaults)
    as [_ Hpod]; [reflexivity|].
  exact Hpod.
Defined.


(** X14, on the instance: two lines, then the container fails. *)
Lemma gc_failure_witness :
  let logged :=
    deliver (internal.Receive demo.ctx) (ContainerLogged <$> ["first"; "second"])
      demo.gc_started in
  trace (internal.Receive demo.ctx (demo.terminated (Some "out of memory")) (final logged))
  = [ Log (GCFailed (Some (@sproto.Build_TaskContainerStopped demo.foreign (Some "out of memory"))));
      Log (ErrorText "first"); Log (ErrorText "second"); Stop ].
Proof.
  intros logged.
  destruct (gc_failure_surfaces_the_log demo.ctx demo.gc_started ["first"; "second"]
              (demo.terminated_report (Some "out of memory"))
              (@sproto.Build_TaskContainerStopped demo.foreign (Some "out of memory")))
    as (_ & _ & _ & _ & Htrace); [reflexivity|reflexivity|].
  exact Htrace.
Defined.

(** X15, on the instance: the GC task whose request is G1 is delivered an
    allocation for T2; after it has stopped the store holds the session
    of T2. *)
Lemma gc_session_witness :
  let r := internal.Receive demo.ctx (ResourcesAllocated demo.stale) demo.gc_started in
  let s := internal.Receive demo.ctx PostStop (final r) in
  trace s = [DeleteTaskSessionByTaskID "G1"] ∧
  "T2" ∈ sessions_after demo.working_db (trace r ++ trace s) ∅.
Proof.
  intros r s.
  destruct (gc_session_follows_message_id demo.ctx demo.gc_started
              (default demo.request (internal.task demo.gc_started))
              demo.stale "token-T2" ∅)
    as (_ & Hdelete & _ & Hstays); [reflexivity..|].
  split; [exact Hdelete|]. apply Hstays. discriminate.
Defined.

(** X20, on the instance: the life of T1. *)
Lemma life_of_a_command_witness :
  let r := demo.run_of [PreStart; demo.allocated 3; demo.running; demo.terminated None]
             demo.created in
  result r = Returned tt ∧
  command.State_of (final r) = Terminated ∧
  count registers_proxy (trace r) = 1%nat ∧
  count unregisters_proxy (trace r) = 1%nat ∧
  "T1" ∉ sessions_after demo.working_db (trace r) {[ "T1"; "T9" ]}.
Proof.
  intros r.
  destruct (life_of_a_command demo.newSummary demo.generateServiceAddress
              demo.tensorboardServiceAddress demo.DefaultStringValue demo.ctx
              demo.created 3%nat "token-T1" demo.spec
              {| container.ID := "k1"; container.State_ := container.Running |}
              {| container.ID := "k1"; container.State_ := container.Terminated |}
              {| sproto.Addresses :=
                   [ {| container.HostIP := "10.0.0.5"; container.HostPort := 9000 |} ] |}
              {[ "T1"; "T9" ]})
    as (Hresult & Hstate & _ & _ & _ & Hregisters & Hunregisters & _ & _ & Hstore);
    [reflexivity..|].
  split_and!;
    [exact Hresult|exact Hstate|exact Hregisters|exact Hunregisters|exact Hstore].
Defined.

(** X21, on the instance: the database is down when the GC task is
    allocated. *)
Lemma gc_failures_witness :
  internal.Receive demo.ctx (ResourcesAllocated demo.stale) demo.gc_offline
  = Run (Raised (Err (errors_Wrap (errors_New "connection refused")
                        "cannot start a new task session for a GC task")))
      demo.gc_offline [StartTaskSession "T2"].
Proof.
  destruct (gc_failures_start_nothing demo.ctx demo.gc_offline demo.stale)
    as [Hsession _].
  apply (Hsession (errors_New "connection refused")). reflexivity.
Defined.


(** X25, on the instance: the running T1 is told that its container
    terminated, with no stop record. *)
Lemma report_without_record_witness :
  let c := final (demo.run_of [PreStart; demo.allocated 3; demo.running] demo.created) in
  let r := Receive (TaskContainerStateChanged (demo.reports container.Terminated)) c in
  result r = Raised (Panic "nil pointer dereference") ∧
  trace r = [Tell (Some "/proxy") (Unregister {| proxy.ServiceID := "T1" |})] ∧
  command.exitStatus (final r) = None ∧
  count publishes_exited (trace r) = 0%nat.
Proof.
  intros c r.
  destruct (report_without_record_panics demo.newSummary demo.generateServiceAddress
              demo.tensorboardServiceAddress demo.DefaultStringValue demo.ctx
              c (demo.reports container.Terminated))
    as [_ Hterminated].
  destruct Hterminated as (Hrun & Hstatus & Hexited & _); [reflexivity|reflexivity|].
  split_and!;
    [exact (f_equal result Hrun)|exact (f_equal trace Hrun)|exact Hstatus|exact Hexited].
Defined.

(** X28, on the instance: the GC task of experiment 12 is allocated two
    entries. *)
Lemma gc_allocation_witness :
  let r := internal.Receive demo.ctx (ResourcesAllocated (demo.grant [1; 2]%nat))
             demo.gc_started in
  result r = Returned tt ∧
  final r = demo.gc_started ∧
  length (trace r) = 5%nat ∧
  ExperimentCheckpointsToGCRaw 12 (Some 0) (Some 1) (Some 1) true ∈ trace r.
Proof.
  intros r.
  pose proof (gc_allocation_starts_collection demo.ctx demo.gc_started
                (demo.grant [1; 2]%nat) "token-T1" demo.experiment ["c1"; "c2"] demo.spec
                eq_refl eq_refl eq_refl eq_refl)
    as Hrun.
  split_and!.
  - exact (f_equal result Hrun).
  - exact (f_equal final Hrun).
  - exact (f_equal (λ r, length (trace r)) Hrun).
  - subst r. rewrite Hrun. vm_compute. right. left.
Defined.

End More_on_the_instance.
